(** * Haxball game: physics engine, session controller and room-id handling

    A shallow embedding of [physics.ts], [game.ts], [network.ts] and the
    join handler of [main.ts].

    Conventions of the embedding.
    - A TypeScript [number] that holds a coordinate, a speed or a length is a
      real number ([R]): the arithmetic is the exact one, rounding is not
      modelled.  The counters ([kickCooldown], [countdown], the two score
      fields) only ever receive integer constants, [++] and [--]; they are [Z].
    - A method that writes to the objects it is given returns their final
      states next to its return value.
    - The JavaScript [Map] of players keeps insertion order; it is an
      association list in that order.
    - What is passed to [Network.send] is appended to the [sent] log of the
      game; time stamps and timers are left out. *)

From Stdlib Require Import Reals Lra Lia ZArith List String Ascii Bool.
Import ListNotations.

Open Scope R_scope.

(** ** Comparisons of numbers as booleans *)

Definition Rltb (a b : R) : bool := if Rlt_dec a b then true else false.
Definition Rgtb (a b : R) : bool := Rltb b a.
Definition Reqb (a b : R) : bool := if Req_dec_T a b then true else false.

(** ** types.ts *)

Record Vector2 : Type := mkVector2 { x : R; y : R }.

Inductive Team : Type := Red | Blue.

Record Player : Type := mkPlayer {
  id : string;
  position : Vector2;
  velocity : Vector2;
  team : Team;
  name : string;
  isKicking : bool;
  kickCooldown : Z
}.

(** The ball's [position] and [velocity] carry a prefix: a projection name
    can be declared once. *)
Record Ball : Type := mkBall {
  ballPosition : Vector2;
  ballVelocity : Vector2;
  radius : R
}.

Record Score : Type := mkScore { red : Z; blue : Z }.

Record GameState : Type := mkGameState {
  players : list (string * Player);
  ball : Ball;
  score : Score;
  isPlaying : bool;
  countdown : Z
}.

Record InputState : Type := mkInput {
  up : bool;
  down : bool;
  left : bool;
  right : bool;
  kick : bool
}.

Record GameConfig : Type := mkConfig {
  fieldWidth : R;
  fieldHeight : R;
  playerRadius : R;
  ballRadius : R;
  playerSpeed : R;
  kickForce : R;
  friction : R;
  goalWidth : R
}.

(** The [data] of a [player-update] message, as [sendPlayerUpdate] builds
    it. *)
Record PlayerUpdate : Type := mkPlayerUpdate {
  msgId : string;
  msgPosition : Vector2;
  msgVelocity : Vector2;
  msgTeam : Team;
  msgName : string;
  msgIsKicking : bool
}.

Inductive NetworkMessage : Type :=
| player_update (data : PlayerUpdate)
| ball_update (data : Ball)
| score_update (data : Score)
| player_join (data : Player)
| player_leave (playerId : string)
| game_state (data : GameState)
| kick_event (playerId : string).

(** ** physics.ts *)

Module Physics.

(** *** Vector operations *)

Definition add (a b : Vector2) : Vector2 :=
  {| x := x a + x b; y := y a + y b |}.

Definition subtract (a b : Vector2) : Vector2 :=
  {| x := x a - x b; y := y a - y b |}.

Definition multiply (v : Vector2) (scalar : R) : Vector2 :=
  {| x := x v * scalar; y := y v * scalar |}.

Definition magnitude (v : Vector2) : R :=
  sqrt (x v * x v + y v * y v).

Definition normalize (v : Vector2) : Vector2 :=
  let mag := magnitude v in
  if Reqb mag 0 then {| x := 0; y := 0 |}
  else {| x := x v / mag; y := y v / mag |}.

Definition distance (a b : Vector2) : R :=
  magnitude (subtract a b).

Definition dot (a b : Vector2) : R :=
  x a * x b + y a * y b.

Section WithConfig.

Variable config : GameConfig.

(** *** Update player position based on input *)

Definition updatePlayer (player : Player) (input : InputState) : Player :=
  let acceleration := {| x := 0; y := 0 |} in
  let acceleration :=
    if up input then {| x := x acceleration; y := y acceleration - 1 |}
    else acceleration in
  let acceleration :=
    if down input then {| x := x acceleration; y := y acceleration + 1 |}
    else acceleration in
  let acceleration :=
    if left input then {| x := x acceleration - 1; y := y acceleration |}
    else acceleration in
  let acceleration :=
    if right input then {| x := x acceleration + 1; y := y acceleration |}
    else acceleration in
  (* normalize diagonal movement *)
  let normalized := normalize acceleration in
  (* apply acceleration *)
  let vel :=
    {| x := x (velocity player) + x normalized * playerSpeed config * 0.5;
       y := y (velocity player) + y normalized * playerSpeed config * 0.5 |} in
  (* limit max speed *)
  let speed := magnitude vel in
  let vel :=
    if Rgtb speed (playerSpeed config)
    then multiply (normalize vel) (playerSpeed config)
    else vel in
  (* apply friction *)
  let vel := {| x := x vel * friction config; y := y vel * friction config |} in
  (* update position *)
  let pos :=
    {| x := x (position player) + x vel; y := y (position player) + y vel |} in
  (* boundary collision (field bounds) *)
  let margin := playerRadius config in
  let pos :=
    {| x := Rmax margin (Rmin (fieldWidth config - margin) (x pos));
       y := y pos |} in
  let pos :=
    {| x := x pos;
       y := Rmax margin (Rmin (fieldHeight config - margin) (y pos)) |} in
  (* update kick cooldown *)
  let cooldown :=
    if (kickCooldown player >? 0)%Z then (kickCooldown player - 1)%Z
    else kickCooldown player in
  {| id := id player;
     position := pos;
     velocity := vel;
     team := team player;
     name := name player;
     isKicking := isKicking player;
     kickCooldown := cooldown |}.

(** *** Update ball position *)

Definition goalTop : R := (fieldHeight config - goalWidth config) / 2.
Definition goalBottom : R := (fieldHeight config + goalWidth config) / 2.

Definition updateBall (ball : Ball) : Ball :=
  (* apply velocity *)
  let px := x (ballPosition ball) + x (ballVelocity ball) in
  let py := y (ballPosition ball) + y (ballVelocity ball) in
  (* apply friction *)
  let vx := x (ballVelocity ball) * 0.985 in
  let vy := y (ballVelocity ball) * 0.985 in
  (* stop very slow movement *)
  let slow := Rltb (magnitude {| x := vx; y := vy |}) 0.1 in
  let vx := if slow then 0 else vx in
  let vy := if slow then 0 else vy in
  (* left wall *)
  let '(px, vx) :=
    if Rltb (px - radius ball) 0 then
      if Rgtb py goalTop && Rltb py goalBottom then (px, vx)
      else (radius ball, vx * -0.8)
    else (px, vx) in
  (* right wall *)
  let '(px, vx) :=
    if Rgtb (px + radius ball) (fieldWidth config) then
      if Rgtb py goalTop && Rltb py goalBottom then (px, vx)
      else (fieldWidth config - radius ball, vx * -0.8)
    else (px, vx) in
  (* top wall *)
  let '(py, vy) :=
    if Rltb (py - radius ball) 0 then (radius ball, vy * -0.8)
    else (py, vy) in
  (* bottom wall *)
  let '(py, vy) :=
    if Rgtb (py + radius ball) (fieldHeight config)
    then (fieldHeight config - radius ball, vy * -0.8)
    else (py, vy) in
  {| ballPosition := {| x := px; y := py |};
     ballVelocity := {| x := vx; y := vy |};
     radius := radius ball |}.

(** *** Player-ball collision (soft dribbling); the player is only read *)

Definition handlePlayerBallCollision (player : Player) (ball : Ball) : bool * Ball :=
  let dist := distance (position player) (ballPosition ball) in
  let minDist := playerRadius config + radius ball in
  if Rltb dist minDist then
    let normal := normalize (subtract (ballPosition ball) (position player)) in
    let overlap := minDist - dist in
    let pos :=
      {| x := x (ballPosition ball) + x normal * (overlap + 1);
         y := y (ballPosition ball) + y normal * (overlap + 1) |} in
    let playerSpeed := magnitude (velocity player) in
    let vel :=
      if Rgtb playerSpeed 0.3 then
        let pushStrength := 0.4 in
        {| x := x (ballVelocity ball) * 0.7 + x (velocity player) * pushStrength;
           y := y (ballVelocity ball) * 0.7 + y (velocity player) * pushStrength |}
      else
        {| x := x (ballVelocity ball) + x normal * 0.5;
           y := y (ballVelocity ball) + y normal * 0.5 |} in
    (true, {| ballPosition := pos; ballVelocity := vel; radius := radius ball |})
  else (false, ball).

(** *** Player kick the ball.  The timer that clears [isKicking] after
    100 ms is outside the model. *)

Definition kick (player : Player) (ball : Ball) : bool * Player * Ball :=
  if (kickCooldown player >? 0)%Z then (false, player, ball)
  else
    let dist := distance (position player) (ballPosition ball) in
    let kickRange := playerRadius config + radius ball + 25 in
    if Rltb dist kickRange then
      let direction := normalize (subtract (ballPosition ball) (position player)) in
      let vel :=
        {| x := x (ballVelocity ball) + x direction * kickForce config;
           y := y (ballVelocity ball) + y direction * kickForce config |} in
      (true,
       {| id := id player; position := position player;
          velocity := velocity player; team := team player;
          name := name player; isKicking := true; kickCooldown := 20 |},
       {| ballPosition := ballPosition ball; ballVelocity := vel;
          radius := radius ball |})
    else (false, player, ball).

(** *** Kick with extended range for network tolerance *)

Definition kickWithExtendedRange (player : Player) (ball : Ball) : bool * Player * Ball :=
  let dist := distance (position player) (ballPosition ball) in
  let kickRange := playerRadius config + radius ball + 60 in
  if Rltb dist kickRange then
    let direction := normalize (subtract (ballPosition ball) (position player)) in
    let vel :=
      {| x := x (ballVelocity ball) + x direction * kickForce config;
         y := y (ballVelocity ball) + y direction * kickForce config |} in
    (true,
     {| id := id player; position := position player;
        velocity := velocity player; team := team player;
        name := name player; isKicking := isKicking player;
        kickCooldown := 20 |},
     {| ballPosition := ballPosition ball; ballVelocity := vel;
        radius := radius ball |})
  else (false, player, ball).

(** *** Check for goals.  The ball is returned next to the answer, as it
    is for the methods that write to it. *)

Definition checkGoal (ball : Ball) : option Team * Ball :=
  if Rltb (x (ballPosition ball) - radius ball) 0
     && Rgtb (y (ballPosition ball)) goalTop
     && Rltb (y (ballPosition ball)) goalBottom
  then (Some Blue, ball)
  else if Rgtb (x (ballPosition ball) + radius ball) (fieldWidth config)
          && Rgtb (y (ballPosition ball)) goalTop
          && Rltb (y (ballPosition ball)) goalBottom
  then (Some Red, ball)
  else (None, ball).

(** *** Player-player collision *)

Definition handlePlayerCollision (p1 p2 : Player) : Player * Player :=
  let dist := distance (position p1) (position p2) in
  let minDist := playerRadius config * 2 in
  if Rltb dist minDist && Rgtb dist 0 then
    let normal := normalize (subtract (position p2) (position p1)) in
    let overlap := minDist - dist in
    (* separate players *)
    let pos1 :=
      {| x := x (position p1) - x normal * overlap * 0.5;
         y := y (position p1) - y normal * overlap * 0.5 |} in
    let pos2 :=
      {| x := x (position p2) + x normal * overlap * 0.5;
         y := y (position p2) + y normal * overlap * 0.5 |} in
    (* exchange velocities *)
    let relativeVelocity := subtract (velocity p1) (velocity p2) in
    let velocityAlongNormal := dot relativeVelocity normal in
    let '(vel1, vel2) :=
      if Rgtb velocityAlongNormal 0 then
        ({| x := x (velocity p1) - velocityAlongNormal * x normal * 0.5;
            y := y (velocity p1) - velocityAlongNormal * y normal * 0.5 |},
         {| x := x (velocity p2) + velocityAlongNormal * x normal * 0.5;
            y := y (velocity p2) + velocityAlongNormal * y normal * 0.5 |})
      else (velocity p1, velocity p2) in
    ({| id := id p1; position := pos1; velocity := vel1; team := team p1;
        name := name p1; isKicking := isKicking p1;
        kickCooldown := kickCooldown p1 |},
     {| id := id p2; position := pos2; velocity := vel2; team := team p2;
        name := name p2; isKicking := isKicking p2;
        kickCooldown := kickCooldown p2 |})
  else (p1, p2).

(** The position of a player lies in the part of the field that its disc
    may occupy. *)
Definition playerInBounds (player : Player) : Prop :=
  playerRadius config <= x (position player) <= fieldWidth config - playerRadius config /\
  playerRadius config <= y (position player) <= fieldHeight config - playerRadius config.

(** Iterated calls of [updatePlayer], one input per call. *)
Fixpoint updatePlayerMany (player : Player) (inputs : list InputState) : Player :=
  match inputs with
  | [] => player
  | input :: rest => updatePlayerMany (updatePlayer player input) rest
  end.

End WithConfig.

End Physics.

(** ** game.ts *)

Inductive Phase : Type := menu | lobby | playing.

(** The fields of the [Game] object that the simulation reads or writes;
    [isHosting] is [network.isHosting] and [sent] logs the messages handed to
    the network, oldest first.  The [config] field is written once, by the
    constructor: it is the constant [gameConfig] below. *)
Record Game : Type := mkGame {
  state : GameState;
  input : InputState;
  localPlayerId : string;
  gamePhase : Phase;
  isHosting : bool;
  sent : list NetworkMessage
}.

(** The configuration that the constructor of [Game] installs. *)
Definition gameConfig : GameConfig :=
  {| fieldWidth := 1000;
     fieldHeight := 600;
     playerRadius := 25;
     ballRadius := 15;
     playerSpeed := 5;
     kickForce := 15;
     friction := 0.95;
     goalWidth := 150 |}.

(** *** The [Map] of players *)

Fixpoint map_get (key : string) (m : list (string * Player)) : option Player :=
  match m with
  | [] => None
  | (k, v) :: rest => if String.eqb k key then Some v else map_get key rest
  end.

(** Writing to the fields of the object stored under [key]: the entry keeps
    its place. *)
Fixpoint map_modify (key : string) (f : Player -> Player)
    (m : list (string * Player)) : list (string * Player) :=
  match m with
  | [] => []
  | (k, v) :: rest =>
      if String.eqb k key then (k, f v) :: rest
      else (k, v) :: map_modify key f rest
  end.

(** [players[i] = v] on the array of player objects. *)
Fixpoint array_set (i : nat) (v : Player) (a : list Player) : list Player :=
  match a, i with
  | [], _ => []
  | _ :: rest, O => v :: rest
  | p :: rest, S i' => p :: array_set i' v rest
  end.

(** *** Field updates *)

Definition withPlayers (st : GameState) (ps : list (string * Player)) : GameState :=
  {| players := ps; ball := ball st; score := score st;
     isPlaying := isPlaying st; countdown := countdown st |}.

Definition withBall (st : GameState) (b : Ball) : GameState :=
  {| players := players st; ball := b; score := score st;
     isPlaying := isPlaying st; countdown := countdown st |}.

Definition withScore (st : GameState) (s : Score) : GameState :=
  {| players := players st; ball := ball st; score := s;
     isPlaying := isPlaying st; countdown := countdown st |}.

Definition withCountdown (st : GameState) (c : Z) : GameState :=
  {| players := players st; ball := ball st; score := score st;
     isPlaying := isPlaying st; countdown := c |}.

Definition withState (g : Game) (st : GameState) : Game :=
  {| state := st; input := input g;
     localPlayerId := localPlayerId g; gamePhase := gamePhase g;
     isHosting := isHosting g; sent := sent g |}.

Definition withInput (g : Game) (i : InputState) : Game :=
  {| state := state g; input := i;
     localPlayerId := localPlayerId g; gamePhase := gamePhase g;
     isHosting := isHosting g; sent := sent g |}.

(** [network.send(message)] *)
Definition send (g : Game) (message : NetworkMessage) : Game :=
  {| state := state g; input := input g;
     localPlayerId := localPlayerId g; gamePhase := gamePhase g;
     isHosting := isHosting g; sent := sent g ++ [message] |}.

Definition sendPlayerUpdate (g : Game) (player : Player) : Game :=
  send g (player_update
            {| msgId := id player; msgPosition := position player;
               msgVelocity := velocity player; msgTeam := team player;
               msgName := name player; msgIsKicking := isKicking player |}).

(** *** createBall, resetPositions *)

Definition createBall (cfg : GameConfig) : Ball :=
  {| ballPosition := {| x := fieldWidth cfg / 2; y := fieldHeight cfg / 2 |};
     ballVelocity := {| x := 0; y := 0 |};
     radius := ballRadius cfg |}.

(** The y coordinate of the slot with the given index, the same expression
    for both teams. *)
Definition slotY (cfg : GameConfig) (index : nat) : R :=
  fieldHeight cfg / 2
  + (if (index <? 2)%nat then -60 else 60)
    * (if (index mod 2 =? 0)%nat then 1 else -1)
  + (INR (index / 2) * 100 - 50).

Definition setPosition (player : Player) (pos : Vector2) : Player :=
  {| id := id player; position := pos; velocity := {| x := 0; y := 0 |};
     team := team player; name := name player;
     isKicking := isKicking player; kickCooldown := kickCooldown player |}.

(** The [forEach] of [resetPositions], with its two counters. *)
Fixpoint resetPlayers (cfg : GameConfig) (redIndex blueIndex : nat)
    (ps : list (string * Player)) : list (string * Player) :=
  match ps with
  | [] => []
  | (k, player) :: rest =>
      match team player with
      | Red =>
          (k, setPosition player
                {| x := 150 + INR (redIndex mod 2) * 80;
                   y := slotY cfg redIndex |})
          :: resetPlayers cfg (S redIndex) blueIndex rest
      | Blue =>
          (k, setPosition player
                {| x := fieldWidth cfg - 150 - INR (blueIndex mod 2) * 80;
                   y := slotY cfg blueIndex |})
          :: resetPlayers cfg redIndex (S blueIndex) rest
      end
  end.

Definition resetPositions (cfg : GameConfig) (st : GameState) : GameState :=
  {| players := resetPlayers cfg 0 0 (players st);
     ball := createBall cfg;
     score := score st;
     isPlaying := isPlaying st;
     countdown := countdown st |}.

(** *** update *)

(** [this.state.score[scorer]++] *)
Definition incrementScore (s : Score) (scorer : Team) : Score :=
  match scorer with
  | Red => {| red := red s + 1; blue := blue s |}
  | Blue => {| red := red s; blue := blue s + 1 |}
  end.

(** The first part of a tick outside the countdown: the local player. *)
Definition updateLocalPlayer (g : Game) : Game :=
  match map_get (localPlayerId g) (players (state g)) with
  | Some localPlayer =>
      let moved := Physics.updatePlayer gameConfig localPlayer (input g) in
      let g := withState g
                 (withPlayers (state g)
                    (map_modify (localPlayerId g) (fun _ => moved) (players (state g)))) in
      sendPlayerUpdate g moved
  | None => g
  end.

(** One call [handlePlayerCollision(players[i], players[j])] on the array:
    both objects are written in place. *)
Definition collidePair (cfg : GameConfig) (a : list Player) (i j : nat) : list Player :=
  match nth_error a i, nth_error a j with
  | Some p1, Some p2 =>
      let '(p1', p2') := Physics.handlePlayerCollision cfg p1 p2 in
      array_set j p2' (array_set i p1' a)
  | _, _ => a
  end.

(** The two nested loops, [i] from 0 and [j] from [i + 1]. *)
Definition collideAll (cfg : GameConfig) (a : list Player) : list Player :=
  let n := List.length a in
  fold_left
    (fun a i => fold_left (fun a j => collidePair cfg a i j) (seq (S i) (n - S i)) a)
    (seq 0 n) a.

(** The host's ball physics and collisions, up to the goal check. *)
Definition hostPhysics (g : Game) : Game :=
  let cfg := gameConfig in
  let st := state g in
  let b := Physics.updateBall cfg (ball st) in
  (* player-ball collisions *)
  let b :=
    fold_left (fun b entry => snd (Physics.handlePlayerBallCollision cfg (snd entry) b))
      (players st) b in
  (* player-player collisions *)
  let a := collideAll cfg (map snd (players st)) in
  let ps := combine (map fst (players st)) a in
  withState g (withBall (withPlayers st ps) b).

(** The goal check of the host and the broadcast of the ball. *)
Definition hostGoalCheck (g : Game) : Game :=
  let '(scorer, b) := Physics.checkGoal gameConfig (ball (state g)) in
  let g := withState g (withBall (state g) b) in
  let g :=
    match scorer with
    | Some t =>
        let g := withState g (withScore (state g) (incrementScore (score (state g)) t)) in
        let g := send g (score_update (score (state g))) in
        let g := withState g (resetPositions gameConfig (state g)) in
        withState g (withCountdown (state g) 120)
    | None => g
    end in
  send g (ball_update (ball (state g))).

Definition update (g : Game) : Game :=
  if (countdown (state g) >? 0)%Z then
    let g := withState g (withCountdown (state g) (countdown (state g) - 1)) in
    if isHosting g then send g (game_state (state g)) else g
  else
    let g := updateLocalPlayer g in
    if isHosting g then hostGoalCheck (hostPhysics g) else g.

(** A sequence of ticks; the key handlers may change the input in between,
    so each tick comes with the input that it sees. *)
Fixpoint ticks (g : Game) (inputs : list InputState) : Game :=
  match inputs with
  | [] => g
  | i :: rest => ticks (update (withInput g i)) rest
  end.

(** *** Inbound messages and the kick key *)

Definition handlePlayerUpdate (g : Game) (data : PlayerUpdate) : Game :=
  match map_get (msgId data) (players (state g)) with
  | Some _ =>
      if negb (String.eqb (msgId data) (localPlayerId g)) then
        withState g
          (withPlayers (state g)
             (map_modify (msgId data)
                (fun player =>
                   {| id := id player;
                      position := msgPosition data;
                      velocity := msgVelocity data;
                      team := msgTeam data;
                      name := name player;
                      isKicking := msgIsKicking data;
                      kickCooldown := kickCooldown player |})
                (players (state g))))
      else g
  | None => g
  end.

Definition setIsKicking (player : Player) (b : bool) : Player :=
  {| id := id player; position := position player; velocity := velocity player;
     team := team player; name := name player; isKicking := b;
     kickCooldown := kickCooldown player |}.

Definition setKickCooldown (player : Player) (c : Z) : Player :=
  {| id := id player; position := position player; velocity := velocity player;
     team := team player; name := name player; isKicking := isKicking player;
     kickCooldown := c |}.

Definition handleRemoteKick (g : Game) (playerId : string) : Game :=
  match map_get playerId (players (state g)) with
  | Some player =>
      let player := setIsKicking player true in
      if isHosting g then
        let '(_, player, b) :=
          Physics.kickWithExtendedRange gameConfig player (ball (state g)) in
        withState g
          (withBall (withPlayers (state g)
                       (map_modify playerId (fun _ => player) (players (state g)))) b)
      else
        withState g
          (withPlayers (state g)
             (map_modify playerId (fun _ => player) (players (state g))))
  | None => g
  end.

Definition handleKick (g : Game) : Game :=
  match map_get (localPlayerId g) (players (state g)) with
  | Some localPlayer =>
      if (kickCooldown localPlayer <=? 0)%Z then
        let g := send g (kick_event (localPlayerId g)) in
        let '(localPlayer, b) :=
          if isHosting g then
            let '(_, p, b) := Physics.kick gameConfig localPlayer (ball (state g)) in (p, b)
          else (localPlayer, ball (state g)) in
        let localPlayer := setIsKicking (setKickCooldown localPlayer 20) true in
        withState g
          (withBall (withPlayers (state g)
                       (map_modify (localPlayerId g) (fun _ => localPlayer)
                          (players (state g)))) b)
      else g
  | None => g
  end.

(** ** network.ts and the join button of main.ts: the room id *)

Module Str.

Definition toUpperCaseChar (c : ascii) : ascii :=
  let n := nat_of_ascii c in
  if ((97 <=? n) && (n <=? 122))%nat then ascii_of_nat (n - 32) else c.

Fixpoint toUpperCase (s : string) : string :=
  match s with
  | EmptyString => EmptyString
  | String c rest => String (toUpperCaseChar c) (toUpperCase rest)
  end.

(** Tab, line feed, vertical tab, form feed, carriage return and space. *)
Definition isWhiteSpace (c : ascii) : bool :=
  let n := nat_of_ascii c in
  (((9 <=? n) && (n <=? 13)) || (n =? 32))%nat.

Fixpoint trimStart (s : string) : string :=
  match s with
  | EmptyString => EmptyString
  | String c rest => if isWhiteSpace c then trimStart rest else s
  end.

Fixpoint trimEnd (s : string) : string :=
  match s with
  | EmptyString => EmptyString
  | String c rest =>
      match trimEnd rest with
      | EmptyString => if isWhiteSpace c then EmptyString else String c EmptyString
      | kept => String c kept
      end
  end.

Definition trim (s : string) : string := trimEnd (trimStart s).

Definition startsWith (s searchString : string) : bool :=
  String.prefix searchString s.

Fixpoint drop (n : nat) (s : string) : string :=
  match n, s with
  | O, _ => s
  | S n', EmptyString => EmptyString
  | S n', String _ rest => drop n' rest
  end.

(** [s.replace(pattern, replacement)] with a string pattern: the first
    occurrence only. *)
Fixpoint replace (pattern replacement s : string) : string :=
  if String.prefix pattern s
  then String.append replacement (drop (String.length pattern) s)
  else match s with
       | EmptyString => EmptyString
       | String c rest => String c (replace pattern replacement rest)
       end.

End Str.

Module Network.

(** The id that [joinRoom] hands to [peer.connect]. *)
Definition joinRoom (roomId : string) : string :=
  (* normalize room id - add prefix if missing *)
  let normalizedRoomId := Str.trim (Str.toUpperCase roomId) in
  let normalizedRoomId :=
    if negb (Str.startsWith normalizedRoomId "HAX-")
    then String.append "hax-" normalizedRoomId
    else normalizedRoomId in
  (* ensure consistent casing (hax- lowercase, rest uppercase) *)
  String.append "hax-" (Str.replace "HAX-" EmptyString normalizedRoomId).

End Network.

(** The click handler of the join button: [None] when the handler shows
    'Please enter a room ID' and returns, otherwise the id that the
    connection is attempted with. *)
Definition joinBtnClick (roomIdInput : string) : option string :=
  let roomId := Str.toUpperCase (Str.trim roomIdInput) in
  if String.eqb roomId EmptyString then None
  else Some (Network.joinRoom roomId).

(** ** game.ts: the rest of the session controller *)

(** *** [Map.set] and [Map.delete] *)

(** [m.set(key, v)]: an entry that exists keeps its place and takes the new
    value, a new key goes to the end. *)
Fixpoint map_set (key : string) (v : Player)
    (m : list (string * Player)) : list (string * Player) :=
  match m with
  | [] => [(key, v)]
  | (k, p) :: rest =>
      if String.eqb k key then (k, v) :: rest
      else (k, p) :: map_set key v rest
  end.

Fixpoint map_delete (key : string)
    (m : list (string * Player)) : list (string * Player) :=
  match m with
  | [] => []
  | (k, p) :: rest =>
      if String.eqb k key then rest
      else (k, p) :: map_delete key rest
  end.

(** *** The constructor *)

Definition createInitialState : GameState :=
  {| players := [];
     ball := createBall gameConfig;
     score := {| red := 0; blue := 0 |};
     isPlaying := false;
     countdown := 0 |}.

(** The game as the constructor leaves it; the network is not hosting
    before a room is created. *)
Definition newGame : Game :=
  {| state := createInitialState;
     input := {| up := false; down := false; left := false; right := false;
                 kick := false |};
     localPlayerId := EmptyString;
     gamePhase := menu;
     isHosting := false;
     sent := [] |}.

Definition withLocalPlayerId (g : Game) (i : string) : Game :=
  {| state := state g; input := input g; localPlayerId := i;
     gamePhase := gamePhase g; isHosting := isHosting g; sent := sent g |}.

Definition withGamePhase (g : Game) (p : Phase) : Game :=
  {| state := state g; input := input g; localPlayerId := localPlayerId g;
     gamePhase := p; isHosting := isHosting g; sent := sent g |}.

Definition withIsHosting (g : Game) (b : bool) : Game :=
  {| state := state g; input := input g; localPlayerId := localPlayerId g;
     gamePhase := gamePhase g; isHosting := b; sent := sent g |}.

Definition withIsPlaying (st : GameState) (b : bool) : GameState :=
  {| players := players st; ball := ball st; score := score st;
     isPlaying := b; countdown := countdown st |}.

(** *** createPlayer *)

Definition Team_eqb (a b : Team) : bool :=
  match a, b with
  | Red, Red | Blue, Blue => true
  | _, _ => false
  end.

(** The number of players of a team in the map. *)
Definition teamCount (t : Team) (m : list (string * Player)) : nat :=
  List.length (filter (fun p => Team_eqb (team p) t) (map snd m)).

(** [Math.ceil(playerCount / 2)] on a count is [(playerCount + 1) / 2]. *)
Definition createPlayer (g : Game) (playerId playerName : string)
    (playerTeam : Team) : Player :=
  let playerCount := teamCount playerTeam (players (state g)) in
  {| id := playerId;
     position :=
       {| x := match playerTeam with
               | Red => 150 + INR playerCount * 50
               | Blue => fieldWidth gameConfig - 150 - INR playerCount * 50
               end;
          y := fieldHeight gameConfig / 2
               + (if (playerCount mod 2 =? 0)%nat then -50 else 50)
                 * INR ((playerCount + 1) / 2) |};
     velocity := {| x := 0; y := 0 |};
     team := playerTeam;
     name := playerName;
     isKicking := false;
     kickCooldown := 0 |}.

(** *** Inbound messages *)

(** The [playerData] of a [player-join] message as [handlePlayerJoin] reads
    it: the velocity may be missing. *)
Record PlayerJoinData : Type := mkPlayerJoinData {
  joinId : string;
  joinPosition : Vector2;
  joinVelocity : option Vector2;
  joinTeam : Team;
  joinName : string
}.

Definition handlePlayerJoin (g : Game) (playerData : PlayerJoinData) : Game :=
  let player :=
    {| id := joinId playerData;
       position := joinPosition playerData;
       velocity := match joinVelocity playerData with
                   | Some v => v
                   | None => {| x := 0; y := 0 |}
                   end;
       team := joinTeam playerData;
       name := joinName playerData;
       isKicking := false;
       kickCooldown := 0 |} in
  let g := withState g
             (withPlayers (state g) (map_set (id player) player (players (state g)))) in
  (* if host, send current game state to new player *)
  if isHosting g then send g (game_state (state g)) else g.

Definition handlePlayerLeave (g : Game) (playerId : string) : Game :=
  withState g (withPlayers (state g) (map_delete playerId (players (state g)))).

Definition handleBallUpdate (g : Game) (data : Ball) : Game :=
  withState g
    (withBall (state g)
       {| ballPosition := ballPosition data;
          ballVelocity := ballVelocity data;
          radius := radius (ball (state g)) |}).

Definition handleScoreUpdate (g : Game) (data : Score) : Game :=
  withState g (withScore (state g) data).

(** The loop that a guest starts on the first snapshot that is playing is
    the sequence of [update] calls; here the phase changes. *)
Definition handleGameState (g : Game) (data : GameState) : Game :=
  let restored :=
    fold_left (fun m entry => map_set (fst entry) (snd entry) m) (players data) [] in
  let g :=
    withState g
      {| players := restored;
         ball := ball data;
         score := score data;
         isPlaying := isPlaying data;
         countdown := countdown data |} in
  if isPlaying data then
    match gamePhase g with
    | lobby => withGamePhase g playing
    | _ => g
    end
  else g.

(** The player of a [player-join] message as [sendPlayerJoin] sends it. *)
Definition joinDataOf (player : Player) : PlayerJoinData :=
  {| joinId := id player; joinPosition := position player;
     joinVelocity := Some (velocity player); joinTeam := team player;
     joinName := name player |}.

(** The handler that [setupNetworkHandlers] installs. *)
Definition onMessage (g : Game) (message : NetworkMessage) : Game :=
  match message with
  | player_join data => handlePlayerJoin g (joinDataOf data)
  | player_leave playerId => handlePlayerLeave g playerId
  | player_update data => handlePlayerUpdate g data
  | ball_update data => if negb (isHosting g) then handleBallUpdate g data else g
  | score_update data => handleScoreUpdate g data
  | game_state data => handleGameState g data
  | kick_event playerId => handleRemoteKick g playerId
  end.

(** *** Lobby: switchTeam, createRoom, joinRoom, startGame *)

Definition setTeam (player : Player) (t : Team) : Player :=
  {| id := id player; position := position player; velocity := velocity player;
     team := t; name := name player; isKicking := isKicking player;
     kickCooldown := kickCooldown player |}.

Definition setPositionOnly (player : Player) (pos : Vector2) : Player :=
  {| id := id player; position := pos; velocity := velocity player;
     team := team player; name := name player; isKicking := isKicking player;
     kickCooldown := kickCooldown player |}.

Definition otherTeam (t : Team) : Team :=
  match t with Red => Blue | Blue => Red end.

Definition switchTeam (g : Game) : Game :=
  match map_get (localPlayerId g) (players (state g)) with
  | Some player =>
      let player := setTeam player (otherTeam (team player)) in
      let g := withState g
                 (withPlayers (state g)
                    (map_modify (localPlayerId g) (fun _ => player) (players (state g)))) in
      (* reposition *)
      let newPlayer := createPlayer g (id player) (name player) (team player) in
      let player := setPositionOnly player (position newPlayer) in
      let g := withState g
                 (withPlayers (state g)
                    (map_modify (localPlayerId g) (fun _ => player) (players (state g)))) in
      send g (player_join player)
  | None => g
  end.

(** [createRoom], from the point where the network has opened the room
    under [roomId] and has become the host. *)
Definition createRoom (g : Game) (roomId playerName : string) : Game :=
  let g := withIsHosting g true in
  let g := withLocalPlayerId g roomId in
  let redCount := teamCount Red (players (state g)) in
  let blueCount := teamCount Blue (players (state g)) in
  let t := if (redCount <=? blueCount)%nat then Red else Blue in
  let player := createPlayer g roomId playerName t in
  let g := withState g
             (withPlayers (state g) (map_set roomId player (players (state g)))) in
  withGamePhase g lobby.

(** [joinRoom], from the point where the network has connected; [peerId] is
    the id that the signalling server gave to this peer. *)
Definition joinRoom (g : Game) (peerId playerName : string) : Game :=
  let g := withLocalPlayerId g peerId in
  let t := Blue in
  let player := createPlayer g (localPlayerId g) playerName t in
  let g := withState g
             (withPlayers (state g)
                (map_set (localPlayerId g) player (players (state g)))) in
  let g := send g (player_join player) in
  withGamePhase g lobby.

Definition startGame (g : Game) : Game :=
  if negb (isHosting g) then g
  else
    let g := withState g (withCountdown (state g) 180) in
    let g := withState g (withIsPlaying (state g) true) in
    let g := withGamePhase g playing in
    let g := withState g (resetPositions gameConfig (state g)) in
    (* notify all players *)
    send g (game_state (state g)).

(** *** The keyboard *)

Module Key.

Definition toLowerCaseChar (c : ascii) : ascii :=
  let n := nat_of_ascii c in
  if ((65 <=? n) && (n <=? 90))%nat then ascii_of_nat (n + 32) else c.

Fixpoint toLowerCase (s : string) : string :=
  match s with
  | EmptyString => EmptyString
  | String c rest => String (toLowerCaseChar c) (toLowerCase rest)
  end.

End Key.

(** The [key] and the [code] of a keyboard event. *)
Record KeyboardEvent : Type := mkKeyboardEvent { key : string; code : string }.

Definition setUp (i : InputState) (b : bool) : InputState :=
  {| up := b; down := down i; left := left i; right := right i; kick := kick i |}.
Definition setDown (i : InputState) (b : bool) : InputState :=
  {| up := up i; down := b; left := left i; right := right i; kick := kick i |}.
Definition setLeft (i : InputState) (b : bool) : InputState :=
  {| up := up i; down := down i; left := b; right := right i; kick := kick i |}.
Definition setRight (i : InputState) (b : bool) : InputState :=
  {| up := up i; down := down i; left := left i; right := b; kick := kick i |}.
Definition setKick (i : InputState) (b : bool) : InputState :=
  {| up := up i; down := down i; left := left i; right := right i; kick := b |}.

Definition keydownPlaying (g : Game) (e : KeyboardEvent) : Game :=
  match gamePhase g with
  | playing =>
      let k := Key.toLowerCase (key e) in
      if String.eqb k "w" then withInput g (setUp (input g) true)
      else if String.eqb k "s" then withInput g (setDown (input g) true)
      else if String.eqb k "a" then withInput g (setLeft (input g) true)
      else if String.eqb k "d" then withInput g (setRight (input g) true)
      else if String.eqb k " " then
        if negb (kick (input g))
        then handleKick (withInput g (setKick (input g) true))
        else g
      else g
  | _ => g
  end.

Definition keydown (g : Game) (e : KeyboardEvent) : Game :=
  match gamePhase g with
  | lobby =>
      if String.eqb (key e) "t" || String.eqb (key e) "T" then switchTeam g
      else if String.eqb (code e) "Space" && isHosting g then startGame g
      else keydownPlaying g e
  | _ => keydownPlaying g e
  end.

Definition keyup (g : Game) (e : KeyboardEvent) : Game :=
  let k := Key.toLowerCase (key e) in
  if String.eqb k "w" then withInput g (setUp (input g) false)
  else if String.eqb k "s" then withInput g (setDown (input g) false)
  else if String.eqb k "a" then withInput g (setLeft (input g) false)
  else if String.eqb k "d" then withInput g (setRight (input g) false)
  else if String.eqb k " " then withInput g (setKick (input g) false)
  else g.

(** *** Vocabulary of the statements *)

(** The keys of the players map, in its order. *)
Definition playerIds (g : Game) : list string := map fst (players (state g)).

(** What a tick must not change about a player. *)
Definition whoIs (p : Player) : string * Team * string := (id p, team p, name p).

(** * Properties *)

(** ** Comparisons *)

Lemma Rltb_true (a b : R) : Rltb a b = true <-> a < b.
Proof. unfold Rltb; destruct (Rlt_dec a b); split; intros; try easy. Qed.

Lemma Rltb_false (a b : R) : Rltb a b = false <-> b <= a.
Proof.
  unfold Rltb; destruct (Rlt_dec a b); split; intros; try easy; lra.
Qed.

Lemma Rgtb_true (a b : R) : Rgtb a b = true <-> a > b.
Proof. unfold Rgtb; rewrite Rltb_true; lra. Qed.

Lemma Rgtb_false (a b : R) : Rgtb a b = false <-> a <= b.
Proof. unfold Rgtb; apply Rltb_false. Qed.

Lemma Reqb_true (a b : R) : Reqb a b = true <-> a = b.
Proof. unfold Reqb; destruct (Req_dec_T a b); split; intros; easy. Qed.

Lemma Reqb_false (a b : R) : Reqb a b = false <-> a <> b.
Proof. unfold Reqb; destruct (Req_dec_T a b); split; intros; easy. Qed.

(** ** updatePlayer *)

Lemma clamp_in_range (lo hi v : R) :
  lo <= hi -> lo <= Rmax lo (Rmin hi v) <= hi.
Proof.
  intros Hle. split.
  - apply Rmax_l.
  - apply Rmax_lub; [exact Hle | apply Rmin_l].
Qed.

Lemma updatePlayer_in_bounds (config : GameConfig) (player : Player) (input : InputState) :
  playerRadius config <= fieldWidth config - playerRadius config ->
  playerRadius config <= fieldHeight config - playerRadius config ->
  Physics.playerInBounds config (Physics.updatePlayer config player input).
Proof.
  intros Hw Hh. unfold Physics.playerInBounds, Physics.updatePlayer; cbn [position x y].
  split; apply clamp_in_range; assumption.
Qed.

(** C3. Starting from a player whose position is within bounds, any number
    of calls of [updatePlayer], each with any combination of the four
    direction inputs, leaves the position inside
    [playerRadius, fieldWidth - playerRadius] on the x axis and
    [playerRadius, fieldHeight - playerRadius] on the y axis. *)
Theorem updatePlayer_keeps_position_in_bounds
    (config : GameConfig) (player : Player) (inputs : list InputState) :
  Physics.playerInBounds config player ->
  Physics.playerInBounds config (Physics.updatePlayerMany config player inputs).
Proof.
  revert player. induction inputs as [| input rest IH]; intros player Hin.
  - exact Hin.
  - cbn [Physics.updatePlayerMany]. apply IH.
    destruct Hin as [[Hx1 Hx2] [Hy1 Hy2]].
    apply updatePlayer_in_bounds; lra.
Qed.

Lemma updatePlayer_keeps_position_in_bounds_witness :
  Physics.playerInBounds gameConfig
    (Physics.updatePlayerMany gameConfig
       {| id := "host"; position := {| x := 26; y := 574 |};
          velocity := {| x := -5; y := 5 |}; team := Red; name := "Player";
          isKicking := false; kickCooldown := 3 |}
       [ {| up := false; down := true; left := true; right := false; kick := false |};
         {| up := true; down := true; left := true; right := true; kick := true |};
         {| up := false; down := false; left := false; right := false; kick := false |} ]).
Proof.
  apply updatePlayer_keeps_position_in_bounds.
  unfold Physics.playerInBounds; cbn; lra.
Defined.

(** ** Vectors *)

Lemma magnitude_nonneg (v : Vector2) : 0 <= Physics.magnitude v.
Proof. apply sqrt_pos. Qed.

Lemma magnitude_zero_iff (v : Vector2) :
  Physics.magnitude v = 0 <-> x v = 0 /\ y v = 0.
Proof.
  unfold Physics.magnitude. split.
  - intros H. apply sqrt_eq_0 in H; [nra | nra].
  - intros [Hx Hy]. rewrite Hx, Hy.
    replace (0 * 0 + 0 * 0) with 0 by lra. apply sqrt_0.
Qed.

Lemma magnitude_sqr (v : Vector2) :
  Physics.magnitude v * Physics.magnitude v = x v * x v + y v * y v.
Proof. unfold Physics.magnitude. apply sqrt_sqrt. nra. Qed.

Lemma distance_zero_iff (a b : Vector2) :
  Physics.distance a b = 0 <-> a = b.
Proof.
  unfold Physics.distance. rewrite magnitude_zero_iff.
  destruct a as [ax ay], b as [bx by_]; cbn. split.
  - intros [Hx Hy]. f_equal; lra.
  - intros H; injection H as -> ->. lra.
Qed.

Lemma subtract_zero_iff (a b : Vector2) :
  Physics.magnitude (Physics.subtract a b) = 0 <-> a = b.
Proof. apply distance_zero_iff. Qed.

Lemma normalize_zero (v : Vector2) :
  Physics.magnitude v = 0 -> Physics.normalize v = {| x := 0; y := 0 |}.
Proof.
  intros H. unfold Physics.normalize.
  destruct (Reqb (Physics.magnitude v) 0) eqn:E; [reflexivity |].
  apply Reqb_false in E. contradiction.
Qed.

Lemma normalize_nonzero (v : Vector2) :
  Physics.magnitude v <> 0 ->
  Physics.normalize v =
    {| x := x v / Physics.magnitude v; y := y v / Physics.magnitude v |}.
Proof.
  intros H. unfold Physics.normalize.
  destruct (Reqb (Physics.magnitude v) 0) eqn:E; [| reflexivity].
  apply Reqb_true in E. contradiction.
Qed.

Lemma normalize_unit (v : Vector2) :
  Physics.magnitude v <> 0 -> Physics.magnitude (Physics.normalize v) = 1.
Proof.
  intros H. rewrite (normalize_nonzero v H).
  unfold Physics.magnitude at 1; cbn [x y].
  replace (x v / Physics.magnitude v * (x v / Physics.magnitude v) +
           y v / Physics.magnitude v * (y v / Physics.magnitude v))
    with ((x v * x v + y v * y v) / (Physics.magnitude v * Physics.magnitude v))
    by (field; exact H).
  rewrite <- magnitude_sqr.
  replace (Physics.magnitude v * Physics.magnitude v /
           (Physics.magnitude v * Physics.magnitude v)) with 1
    by (field; exact H).
  apply sqrt_1.
Qed.

Lemma normalize_dot_self (v : Vector2) :
  Physics.magnitude v <> 0 ->
  Physics.dot (Physics.normalize v) (Physics.normalize v) = 1.
Proof.
  intros H. pose proof (normalize_unit v H) as Hu.
  pose proof (magnitude_sqr (Physics.normalize v)) as Hs.
  rewrite Hu in Hs. unfold Physics.dot. lra.
Qed.

Lemma magnitude_lt (v : Vector2) (r : R) :
  0 < r -> x v * x v + y v * y v < r * r -> Physics.magnitude v < r.
Proof.
  intros Hr H. pose proof (magnitude_nonneg v) as H0.
  pose proof (magnitude_sqr v) as Hs.
  destruct (Rlt_dec (Physics.magnitude v) r) as [Hlt | Hge]; [exact Hlt | nra].
Qed.

Lemma magnitude_ge (v : Vector2) (r : R) :
  r * r <= x v * x v + y v * y v -> r <= Physics.magnitude v.
Proof.
  intros H. pose proof (magnitude_nonneg v) as H0.
  pose proof (magnitude_sqr v) as Hs.
  destruct (Rle_dec r (Physics.magnitude v)) as [Hle | Hgt]; [exact Hle | nra].
Qed.

(** ** kick and kickWithExtendedRange *)

Lemma kick_on_cooldown (cfg : GameConfig) (player : Player) (ball : Ball) :
  (0 < kickCooldown player)%Z ->
  Physics.kick cfg player ball = (false, player, ball).
Proof.
  intros H. unfold Physics.kick.
  destruct (kickCooldown player >? 0)%Z eqn:E; [reflexivity | lia].
Qed.

Lemma kick_out_of_range (cfg : GameConfig) (player : Player) (ball : Ball) :
  playerRadius cfg + radius ball + 25
    <= Physics.distance (position player) (ballPosition ball) ->
  Physics.kick cfg player ball = (false, player, ball).
Proof.
  intros H. unfold Physics.kick.
  destruct (kickCooldown player >? 0)%Z; [reflexivity |].
  apply Rltb_false in H. rewrite H. reflexivity.
Qed.

Lemma kick_in_range (cfg : GameConfig) (player : Player) (ball : Ball) :
  (kickCooldown player <= 0)%Z ->
  Physics.distance (position player) (ballPosition ball)
    < playerRadius cfg + radius ball + 25 ->
  Physics.kick cfg player ball =
    (true,
     setIsKicking (setKickCooldown player 20) true,
     {| ballPosition := ballPosition ball;
        ballVelocity :=
          Physics.add (ballVelocity ball)
            (Physics.multiply
               (Physics.normalize
                  (Physics.subtract (ballPosition ball) (position player)))
               (kickForce cfg));
        radius := radius ball |}).
Proof.
  intros Hc Hd. unfold Physics.kick.
  destruct (kickCooldown player >? 0)%Z eqn:E; [lia |].
  apply Rltb_true in Hd. rewrite Hd. reflexivity.
Qed.

Lemma kickWithExtendedRange_in_range (cfg : GameConfig) (player : Player) (ball : Ball) :
  Physics.distance (position player) (ballPosition ball)
    < playerRadius cfg + radius ball + 60 ->
  Physics.kickWithExtendedRange cfg player ball =
    (true,
     setKickCooldown player 20,
     {| ballPosition := ballPosition ball;
        ballVelocity :=
          Physics.add (ballVelocity ball)
            (Physics.multiply
               (Physics.normalize
                  (Physics.subtract (ballPosition ball) (position player)))
               (kickForce cfg));
        radius := radius ball |}).
Proof.
  intros Hd. unfold Physics.kickWithExtendedRange.
  apply Rltb_true in Hd. rewrite Hd. reflexivity.
Qed.

Lemma kickWithExtendedRange_out_of_range (cfg : GameConfig) (player : Player) (ball : Ball) :
  playerRadius cfg + radius ball + 60
    <= Physics.distance (position player) (ballPosition ball) ->
  Physics.kickWithExtendedRange cfg player ball = (false, player, ball).
Proof.
  intros H. unfold Physics.kickWithExtendedRange.
  apply Rltb_false in H. rewrite H. reflexivity.
Qed.

(** The impulse of a kick: of length one times [kickForce] along the line
    from the player to the ball when the two centres differ, nothing when
    they coincide. *)
Lemma impulse_along_direction (force : R) (from to v : Vector2) :
  let n := Physics.normalize (Physics.subtract to from) in
  let v' := Physics.add v (Physics.multiply n force) in
  (from <> to ->
     Physics.magnitude n = 1 /\
     Physics.dot v' n = Physics.dot v n + force /\
     Physics.magnitude (Physics.subtract v' v) = Rabs force) /\
  (from = to -> v' = v).
Proof.
  intros n v'. split.
  - intros Hne.
    assert (Hm : Physics.magnitude (Physics.subtract to from) <> 0).
    { intros H0. apply subtract_zero_iff in H0. congruence. }
    split; [apply normalize_unit; exact Hm |].
    pose proof (normalize_dot_self _ Hm) as Hd. fold n in Hd.
    clearbody n. subst v'. split.
    + replace (Physics.dot (Physics.add v (Physics.multiply n force)) n)
        with (Physics.dot v n + force * Physics.dot n n)
        by (unfold Physics.dot, Physics.add, Physics.multiply; cbn [x y]; ring).
      rewrite Hd. ring.
    + unfold Physics.magnitude, Physics.subtract, Physics.add, Physics.multiply;
        cbn [x y].
      replace ((x v + x n * force - x v) * (x v + x n * force - x v) +
               (y v + y n * force - y v) * (y v + y n * force - y v))
        with (Rsqr force * Physics.dot n n)
        by (unfold Physics.dot, Rsqr; ring).
      rewrite Hd, Rmult_1_r. apply sqrt_Rsqr_abs.
  - intros Heq. subst to. unfold v', n.
    rewrite normalize_zero by (apply subtract_zero_iff; reflexivity).
    destruct v as [vx vy]. unfold Physics.add, Physics.multiply; cbn [x y].
    f_equal; lra.
Qed.

(** C1 (amended).  [kick] returns false and leaves the ball and every field
    of the player as they were whenever [kickCooldown > 0] or the distance
    from the player to the ball is at least
    [playerRadius + ball.radius + 25].  Otherwise it returns true, sets
    [kickCooldown] to 20 and [isKicking] to true, and adds
    [kickForce * normalize(ball - player)] to the velocity of the ball: when
    the two centres differ that direction has length one, the component of
    the velocity along it grows by exactly [kickForce] and the change of
    velocity has magnitude [|kickForce|]; when the centres coincide the
    direction is the zero vector and the velocity stays as it was. *)
Theorem kick_effect (cfg : GameConfig) (player : Player) (ball : Ball) :
  let dist := Physics.distance (position player) (ballPosition ball) in
  let kickRange := playerRadius cfg + radius ball + 25 in
  let direction :=
    Physics.normalize (Physics.subtract (ballPosition ball) (position player)) in
  ((0 < kickCooldown player)%Z \/ kickRange <= dist ->
     Physics.kick cfg player ball = (false, player, ball)) /\
  (~ ((0 < kickCooldown player)%Z \/ kickRange <= dist) ->
     exists ball',
       Physics.kick cfg player ball =
         (true, setIsKicking (setKickCooldown player 20) true, ball') /\
       ballPosition ball' = ballPosition ball /\
       radius ball' = radius ball /\
       ballVelocity ball' =
         Physics.add (ballVelocity ball) (Physics.multiply direction (kickForce cfg)) /\
       (position player <> ballPosition ball ->
          Physics.magnitude direction = 1 /\
          Physics.dot (ballVelocity ball') direction
            = Physics.dot (ballVelocity ball) direction + kickForce cfg /\
          Physics.magnitude (Physics.subtract (ballVelocity ball') (ballVelocity ball))
            = Rabs (kickForce cfg)) /\
       (position player = ballPosition ball ->
          ballVelocity ball' = ballVelocity ball)).
Proof.
  intros dist kickRange direction. split.
  - intros [Hc | Hd].
    + apply kick_on_cooldown; exact Hc.
    + apply kick_out_of_range; exact Hd.
  - intros Hno.
    assert (Hc : (kickCooldown player <= 0)%Z).
    { destruct (Z_lt_le_dec 0 (kickCooldown player)); [exfalso; auto | assumption]. }
    assert (Hd : dist < kickRange).
    { destruct (Rlt_dec dist kickRange); [assumption | exfalso; apply Hno; right; lra]. }
    eexists. split; [apply kick_in_range; assumption |].
    cbn [ballPosition ballVelocity radius].
    destruct (impulse_along_direction (kickForce cfg) (position player)
                (ballPosition ball) (ballVelocity ball)) as [Hne Heq].
    split; [reflexivity |]. split; [reflexivity |]. split; [reflexivity |].
    split; [exact Hne | exact Heq].
Qed.

Lemma kick_effect_witness :
  let player :=
    {| id := "host"; position := {| x := 470; y := 300 |};
       velocity := {| x := 0; y := 0 |}; team := Red; name := "Player";
       isKicking := false; kickCooldown := 0 |} in
  exists ball',
    Physics.kick gameConfig player (createBall gameConfig) =
      (true, setIsKicking (setKickCooldown player 20) true, ball') /\
    ballPosition ball' = ballPosition (createBall gameConfig) /\
    radius ball' = radius (createBall gameConfig) /\
    ballVelocity ball' =
      Physics.add (ballVelocity (createBall gameConfig))
        (Physics.multiply
           (Physics.normalize
              (Physics.subtract (ballPosition (createBall gameConfig)) (position player)))
           (kickForce gameConfig)) /\
    (position player <> ballPosition (createBall gameConfig) ->
       Physics.magnitude
         (Physics.normalize
            (Physics.subtract (ballPosition (createBall gameConfig)) (position player))) = 1 /\
       Physics.dot (ballVelocity ball')
         (Physics.normalize
            (Physics.subtract (ballPosition (createBall gameConfig)) (position player)))
         = Physics.dot (ballVelocity (createBall gameConfig))
             (Physics.normalize
                (Physics.subtract (ballPosition (createBall gameConfig)) (position player)))
           + kickForce gameConfig /\
       Physics.magnitude
         (Physics.subtract (ballVelocity ball') (ballVelocity (createBall gameConfig)))
         = Rabs (kickForce gameConfig)) /\
    (position player = ballPosition (createBall gameConfig) ->
       ballVelocity ball' = ballVelocity (createBall gameConfig)).
Proof.
  intros player.
  apply (proj2 (kick_effect gameConfig player (createBall gameConfig))).
  intros [Hc | Hd].
  - cbn in Hc. lia.
  - assert (Hlt : Physics.distance (position player) (ballPosition (createBall gameConfig))
                  < playerRadius gameConfig + radius (createBall gameConfig) + 25).
    { apply magnitude_lt; cbn; lra. }
    lra.
Defined.

(** At coincident centres, with the game's configuration: the kick is in
    range and off cooldown, it reports success, and the ball's velocity is
    what it was; its magnitude has not grown by [kickForce]. *)
Lemma kick_coincident_centres_no_impulse :
  let player :=
    {| id := "host"; position := {| x := 500; y := 300 |};
       velocity := {| x := 0; y := 0 |}; team := Red; name := "Player";
       isKicking := false; kickCooldown := 0 |} in
  let ball :=
    {| ballPosition := {| x := 500; y := 300 |};
       ballVelocity := {| x := 0; y := 0 |}; radius := 15 |} in
  ~ (0 < kickCooldown player)%Z /\
  Physics.distance (position player) (ballPosition ball)
    < playerRadius gameConfig + radius ball + 25 /\
  fst (fst (Physics.kick gameConfig player ball)) = true /\
  ballVelocity (snd (Physics.kick gameConfig player ball)) = ballVelocity ball /\
  Physics.magnitude (ballVelocity (snd (Physics.kick gameConfig player ball)))
    <> Physics.magnitude (ballVelocity ball) + kickForce gameConfig.
Proof.
  intros player ball.
  assert (Hd : Physics.distance (position player) (ballPosition ball)
               < playerRadius gameConfig + radius ball + 25).
  { apply magnitude_lt; cbn; lra. }
  assert (Hk := kick_in_range gameConfig player ball ltac:(cbn; lia) Hd).
  assert (Hv : ballVelocity (snd (Physics.kick gameConfig player ball)) = ballVelocity ball).
  { rewrite Hk. cbn [snd ballVelocity].
    apply (impulse_along_direction (kickForce gameConfig) (position player)
             (ballPosition ball) (ballVelocity ball)).
    reflexivity. }
  split; [cbn; lia |]. split; [exact Hd |]. split; [rewrite Hk; reflexivity |].
  split; [exact Hv |].
  rewrite Hv. cbn [kickForce gameConfig]. lra.
Qed.

(** C8 (amended).  [kickWithExtendedRange] has no cooldown gate and a range
    tolerance of 60 instead of 25: whenever the distance is below
    [playerRadius + ball.radius + 60] it returns true, adds
    [kickForce * normalize(ball - player)] to the ball's velocity (a vector
    of length [kickForce] along the unit direction when the centres differ)
    and sets [kickCooldown] to 20, whatever the player's [kickCooldown] was;
    otherwise it returns false and changes nothing.  Where plain [kick]
    succeeds, it leaves the same ball and the same player except that it
    does not touch [isKicking], which [kick] sets to true.  At every
    distance in the 35 units from [playerRadius + ball.radius + 25] up to,
    not including, [playerRadius + ball.radius + 60] plain [kick] fails and
    [kickWithExtendedRange] succeeds. *)
Theorem kickWithExtendedRange_effect (cfg : GameConfig) (player : Player) (ball : Ball) :
  let dist := Physics.distance (position player) (ballPosition ball) in
  let base := playerRadius cfg + radius ball in
  let direction :=
    Physics.normalize (Physics.subtract (ballPosition ball) (position player)) in
  let ball' :=
    {| ballPosition := ballPosition ball;
       ballVelocity :=
         Physics.add (ballVelocity ball) (Physics.multiply direction (kickForce cfg));
       radius := radius ball |} in
  (dist < base + 60 ->
     Physics.kickWithExtendedRange cfg player ball
       = (true, setKickCooldown player 20, ball') /\
     (position player <> ballPosition ball ->
        Physics.magnitude direction = 1 /\
        Physics.dot (ballVelocity ball') direction
          = Physics.dot (ballVelocity ball) direction + kickForce cfg /\
        Physics.magnitude (Physics.subtract (ballVelocity ball') (ballVelocity ball))
          = Rabs (kickForce cfg))) /\
  (base + 60 <= dist ->
     Physics.kickWithExtendedRange cfg player ball = (false, player, ball)) /\
  ((kickCooldown player <= 0)%Z -> dist < base + 25 ->
     Physics.kick cfg player ball
       = (true,
          setIsKicking (snd (fst (Physics.kickWithExtendedRange cfg player ball))) true,
          snd (Physics.kickWithExtendedRange cfg player ball))) /\
  (base + 25 <= dist < base + 60 ->
     fst (fst (Physics.kick cfg player ball)) = false /\
     fst (fst (Physics.kickWithExtendedRange cfg player ball)) = true).
Proof.
  intros dist base direction ball'.
  destruct (impulse_along_direction (kickForce cfg) (position player)
              (ballPosition ball) (ballVelocity ball)) as [Hne _].
  split; [| repeat split].
  - intros Hd. split; [apply kickWithExtendedRange_in_range; exact Hd | exact Hne].
  - apply kickWithExtendedRange_out_of_range.
  - intros Hc Hd.
    rewrite kickWithExtendedRange_in_range by (fold dist base; lra).
    rewrite kick_in_range by assumption. reflexivity.
  - rewrite kick_out_of_range; [reflexivity | fold dist base; lra].
  - rewrite kickWithExtendedRange_in_range; [reflexivity | fold dist base; lra].
Qed.

Lemma kickWithExtendedRange_effect_witness :
  let player :=
    {| id := "guest"; position := {| x := 420; y := 300 |};
       velocity := {| x := 0; y := 0 |}; team := Blue; name := "Player";
       isKicking := true; kickCooldown := 7 |} in
  fst (fst (Physics.kick gameConfig player (createBall gameConfig))) = false /\
  fst (fst (Physics.kickWithExtendedRange gameConfig player (createBall gameConfig))) = true.
Proof.
  intros player.
  apply (kickWithExtendedRange_effect gameConfig player (createBall gameConfig)).
  split.
  - apply magnitude_ge; cbn; lra.
  - apply magnitude_lt; cbn; lra.
Defined.

(** Off cooldown and within the range of plain [kick], the two kicks leave
    different players: [kick] raises [isKicking], [kickWithExtendedRange]
    leaves it false. *)
Lemma kickWithExtendedRange_leaves_isKicking :
  let player :=
    {| id := "host"; position := {| x := 470; y := 300 |};
       velocity := {| x := 0; y := 0 |}; team := Red; name := "Player";
       isKicking := false; kickCooldown := 0 |} in
  let ball := createBall gameConfig in
  fst (fst (Physics.kick gameConfig player ball)) = true /\
  fst (fst (Physics.kickWithExtendedRange gameConfig player ball)) = true /\
  isKicking (snd (fst (Physics.kick gameConfig player ball))) = true /\
  isKicking (snd (fst (Physics.kickWithExtendedRange gameConfig player ball))) = false /\
  Physics.kickWithExtendedRange gameConfig player ball
    <> Physics.kick gameConfig player ball.
Proof.
  intros player ball.
  assert (Hd : Physics.distance (position player) (ballPosition ball)
               < playerRadius gameConfig + radius ball + 25).
  { apply magnitude_lt; cbn; lra. }
  assert (Hk := kick_in_range gameConfig player ball ltac:(cbn; lia) Hd).
  assert (He := kickWithExtendedRange_in_range gameConfig player ball ltac:(lra)).
  rewrite Hk, He. cbn [fst snd isKicking setIsKicking setKickCooldown].
  repeat split. intros Heq. discriminate Heq.
Qed.

(** ** handlePlayerCollision *)

Lemma magnitude_subtract_sym (a b : Vector2) :
  Physics.magnitude (Physics.subtract a b) = Physics.magnitude (Physics.subtract b a).
Proof.
  unfold Physics.magnitude, Physics.subtract; cbn [x y]. f_equal. ring.
Qed.

Lemma handlePlayerCollision_guard (cfg : GameConfig) (p1 p2 : Player) :
  let dist := Physics.distance (position p1) (position p2) in
  Rltb dist (playerRadius cfg * 2) && Rgtb dist 0 = true
  <-> 0 < dist < playerRadius cfg * 2.
Proof.
  intros dist. rewrite andb_true_iff, Rltb_true, Rgtb_true. lra.
Qed.

Lemma handlePlayerCollision_skip (cfg : GameConfig) (p1 p2 : Player) :
  ~ (0 < Physics.distance (position p1) (position p2) < playerRadius cfg * 2) ->
  Physics.handlePlayerCollision cfg p1 p2 = (p1, p2).
Proof.
  intros H. unfold Physics.handlePlayerCollision.
  destruct (Rltb _ _ && Rgtb _ _) eqn:E; [| reflexivity].
  apply handlePlayerCollision_guard in E. contradiction.
Qed.

(** C10.  [handlePlayerCollision] is a function of every pair of players.
    When the two centres coincide it returns both players as they were.  It
    normalizes the difference of the positions only under its guard
    [0 < dist < 2 * playerRadius], where that difference is not the zero
    vector.  For players that overlap at a positive distance the
    velocities change only when the players approach: when the relative
    velocity dotted with the normal is positive each player receives half
    of it along the normal, and when it is zero or negative both velocities
    stay as they were. *)
Theorem handlePlayerCollision_safe (cfg : GameConfig) (p1 p2 : Player) :
  let dist := Physics.distance (position p1) (position p2) in
  let normal := Physics.normalize (Physics.subtract (position p2) (position p1)) in
  let velocityAlongNormal :=
    Physics.dot (Physics.subtract (velocity p1) (velocity p2)) normal in
  let result := Physics.handlePlayerCollision cfg p1 p2 in
  (position p1 = position p2 -> dist = 0 /\ result = (p1, p2)) /\
  (0 < dist < playerRadius cfg * 2 ->
     Physics.magnitude (Physics.subtract (position p2) (position p1)) <> 0 /\
     Physics.magnitude normal = 1 /\
     (velocityAlongNormal <= 0 ->
        velocity (fst result) = velocity p1 /\ velocity (snd result) = velocity p2) /\
     (velocityAlongNormal > 0 ->
        velocity (fst result) =
          Physics.subtract (velocity p1)
            (Physics.multiply normal (velocityAlongNormal * 0.5)) /\
        velocity (snd result) =
          Physics.add (velocity p2)
            (Physics.multiply normal (velocityAlongNormal * 0.5)))).
Proof.
  intros dist normal velocityAlongNormal result. split.
  - intros Heq.
    assert (H0 : dist = 0) by (apply distance_zero_iff; exact Heq).
    split; [exact H0 |].
    apply handlePlayerCollision_skip. fold dist. lra.
  - intros Hd.
    assert (Hm : Physics.magnitude (Physics.subtract (position p2) (position p1)) <> 0).
    { rewrite magnitude_subtract_sym. fold (Physics.distance (position p1) (position p2)).
      fold dist. lra. }
    split; [exact Hm |]. split; [apply normalize_unit; exact Hm |].
    assert (Hg := proj2 (handlePlayerCollision_guard cfg p1 p2) Hd).
    unfold result, Physics.handlePlayerCollision. rewrite Hg.
    fold normal. fold velocityAlongNormal.
    split; intros Hv.
    + apply Rgtb_false in Hv. rewrite Hv. split; reflexivity.
    + apply Rgtb_true in Hv. rewrite Hv. cbn [fst snd velocity].
      unfold Physics.subtract, Physics.add, Physics.multiply; cbn [x y].
      split; f_equal; ring.
Qed.

Lemma handlePlayerCollision_safe_witness :
  let p1 :=
    {| id := "a"; position := {| x := 400; y := 300 |};
       velocity := {| x := 2; y := 0 |}; team := Red; name := "A";
       isKicking := false; kickCooldown := 0 |} in
  let p2 :=
    {| id := "b"; position := {| x := 400; y := 300 |};
       velocity := {| x := -2; y := 0 |}; team := Blue; name := "B";
       isKicking := false; kickCooldown := 0 |} in
  Physics.distance (position p1) (position p2) = 0 /\
  Physics.handlePlayerCollision gameConfig p1 p2 = (p1, p2).
Proof.
  intros p1 p2.
  apply (proj1 (handlePlayerCollision_safe gameConfig p1 p2)).
  reflexivity.
Defined.

(** ** checkGoal *)

Lemma checkGoal_ball (cfg : GameConfig) (ball : Ball) :
  snd (Physics.checkGoal cfg ball) = ball.
Proof.
  unfold Physics.checkGoal.
  destruct (Rltb (x (ballPosition ball) - radius ball) 0
            && Rgtb (y (ballPosition ball)) (Physics.goalTop cfg)
            && Rltb (y (ballPosition ball)) (Physics.goalBottom cfg));
    [reflexivity |].
  destruct (Rgtb (x (ballPosition ball) + radius ball) (fieldWidth cfg)
            && Rgtb (y (ballPosition ball)) (Physics.goalTop cfg)
            && Rltb (y (ballPosition ball)) (Physics.goalBottom cfg)); reflexivity.
Qed.

Lemma checkGoal_blue (cfg : GameConfig) (ball : Ball) :
  fst (Physics.checkGoal cfg ball) = Some Blue <->
  x (ballPosition ball) - radius ball < 0 /\
  Physics.goalTop cfg < y (ballPosition ball) < Physics.goalBottom cfg.
Proof.
  unfold Physics.checkGoal.
  destruct (Rltb (x (ballPosition ball) - radius ball) 0
            && Rgtb (y (ballPosition ball)) (Physics.goalTop cfg)
            && Rltb (y (ballPosition ball)) (Physics.goalBottom cfg)) eqn:E1.
  - rewrite !andb_true_iff, !Rltb_true, Rgtb_true in E1. cbn [fst]. split; [lra | reflexivity].
  - assert (N1 : ~ (x (ballPosition ball) - radius ball < 0 /\
                    Physics.goalTop cfg < y (ballPosition ball) < Physics.goalBottom cfg)).
    { intros H. rewrite <- not_true_iff_false in E1. apply E1.
      rewrite !andb_true_iff, !Rltb_true, Rgtb_true. lra. }
    destruct (Rgtb (x (ballPosition ball) + radius ball) (fieldWidth cfg)
              && Rgtb (y (ballPosition ball)) (Physics.goalTop cfg)
              && Rltb (y (ballPosition ball)) (Physics.goalBottom cfg));
      cbn [fst]; split; intros H; try discriminate H; contradiction.
Qed.

Lemma checkGoal_red (cfg : GameConfig) (ball : Ball) :
  fst (Physics.checkGoal cfg ball) = Some Red <->
  x (ballPosition ball) + radius ball > fieldWidth cfg /\
  ~ x (ballPosition ball) - radius ball < 0 /\
  Physics.goalTop cfg < y (ballPosition ball) < Physics.goalBottom cfg.
Proof.
  unfold Physics.checkGoal.
  destruct (Rltb (x (ballPosition ball) - radius ball) 0
            && Rgtb (y (ballPosition ball)) (Physics.goalTop cfg)
            && Rltb (y (ballPosition ball)) (Physics.goalBottom cfg)) eqn:E1.
  - rewrite !andb_true_iff, !Rltb_true, Rgtb_true in E1. cbn [fst].
    split; [intros H; discriminate H | lra].
  - assert (N1 : ~ (x (ballPosition ball) - radius ball < 0 /\
                    Physics.goalTop cfg < y (ballPosition ball) < Physics.goalBottom cfg)).
    { intros H. rewrite <- not_true_iff_false in E1. apply E1.
      rewrite !andb_true_iff, !Rltb_true, Rgtb_true. lra. }
    destruct (Rgtb (x (ballPosition ball) + radius ball) (fieldWidth cfg)
              && Rgtb (y (ballPosition ball)) (Physics.goalTop cfg)
              && Rltb (y (ballPosition ball)) (Physics.goalBottom cfg)) eqn:E2.
    + rewrite !andb_true_iff, !Rgtb_true, Rltb_true in E2. cbn [fst].
      split; [lra | reflexivity].
    + cbn [fst]. split; [intros H; discriminate H |].
      intros H. rewrite <- not_true_iff_false in E2. exfalso. apply E2.
      rewrite !andb_true_iff, !Rgtb_true, Rltb_true. lra.
Qed.

Lemma checkGoal_none (cfg : GameConfig) (ball : Ball) :
  fst (Physics.checkGoal cfg ball) = None <->
  ~ ((x (ballPosition ball) - radius ball < 0 \/
      x (ballPosition ball) + radius ball > fieldWidth cfg) /\
     Physics.goalTop cfg < y (ballPosition ball) < Physics.goalBottom cfg).
Proof.
  pose proof (checkGoal_blue cfg ball) as Hb.
  pose proof (checkGoal_red cfg ball) as Hr.
  destruct (fst (Physics.checkGoal cfg ball)) as [[|] |].
  - split; [intros H; discriminate H |]. intros H. exfalso. apply H.
    destruct Hr as [Hr _]. specialize (Hr eq_refl). lra.
  - split; [intros H; discriminate H |]. intros H. exfalso. apply H.
    destruct Hb as [Hb _]. specialize (Hb eq_refl). lra.
  - split; [| reflexivity]. intros _ [[Hl | Hrt] Hband].
    + destruct Hb as [_ Hb]. discriminate Hb. lra.
    + destruct (Rlt_dec (x (ballPosition ball) - radius ball) 0) as [Hl | Hnl].
      * destruct Hb as [_ Hb]. discriminate Hb. lra.
      * destruct Hr as [_ Hr]. discriminate Hr. lra.
Qed.

(** C6.  [checkGoal] answers with a team exactly when the leading edge of
    the ball is beyond a goal line while the y coordinate lies strictly
    between [goalTop] and [goalBottom]: blue for [x - radius < 0], red for
    [x + radius > fieldWidth] (the left test is made first), and no team in
    every other case.  The ball is as it was after the call, and a second
    call gives the same answer. *)
Theorem checkGoal_iff (cfg : GameConfig) (ball : Ball) :
  let leftCrossed := x (ballPosition ball) - radius ball < 0 in
  let rightCrossed := x (ballPosition ball) + radius ball > fieldWidth cfg in
  let inBand :=
    Physics.goalTop cfg < y (ballPosition ball) < Physics.goalBottom cfg in
  ((exists t, fst (Physics.checkGoal cfg ball) = Some t)
     <-> (leftCrossed \/ rightCrossed) /\ inBand) /\
  (fst (Physics.checkGoal cfg ball) = Some Blue <-> leftCrossed /\ inBand) /\
  (fst (Physics.checkGoal cfg ball) = Some Red
     <-> rightCrossed /\ ~ leftCrossed /\ inBand) /\
  (fst (Physics.checkGoal cfg ball) = None
     <-> ~ ((leftCrossed \/ rightCrossed) /\ inBand)) /\
  snd (Physics.checkGoal cfg ball) = ball /\
  Physics.checkGoal cfg (snd (Physics.checkGoal cfg ball)) = Physics.checkGoal cfg ball.
Proof.
  intros leftCrossed rightCrossed inBand.
  pose proof (checkGoal_blue cfg ball) as Hb.
  pose proof (checkGoal_red cfg ball) as Hr.
  pose proof (checkGoal_none cfg ball) as Hn.
  pose proof (checkGoal_ball cfg ball) as Hs.
  fold leftCrossed inBand in Hb. fold leftCrossed rightCrossed inBand in Hr, Hn.
  split; [| split; [exact Hb | split; [exact Hr | split; [exact Hn | split]]]].
  - split.
    + intros [t Ht]. destruct (Rlt_dec (x (ballPosition ball) - radius ball) 0);
        destruct t; rewrite ?Hb, ?Hr in Ht; tauto.
    + intros H. destruct (fst (Physics.checkGoal cfg ball)) as [t |] eqn:E.
      * exists t. reflexivity.
      * exfalso. apply (proj1 Hn); [reflexivity | exact H].
  - exact Hs.
  - rewrite Hs. reflexivity.
Qed.

(** ** updateBall *)

Ltac case_comparisons :=
  repeat (match goal with
          | |- context [Rltb ?a ?b] =>
              let E := fresh "E" in
              destruct (Rltb a b) eqn:E;
              [apply Rltb_true in E | apply Rltb_false in E]
          | |- context [Rgtb ?a ?b] =>
              let E := fresh "E" in
              destruct (Rgtb a b) eqn:E;
              [apply Rgtb_true in E | apply Rgtb_false in E]
          end;
          cbv beta iota;
          cbn [andb fst snd x y ballPosition ballVelocity radius]).

(** C7.  For a ball that fits between opposite walls.  Let [px], [py] be
    the integrated position and [vx], [vy] the velocity after friction and
    the slow-speed snap.  When the ball is beyond the left or the right
    boundary and [py] lies strictly inside the goal band, [updateBall]
    leaves [px] and [vx] alone; when [py] is outside the band it sets x to
    the wall ([radius] on the left, [fieldWidth - radius] on the right) and
    multiplies [vx] by -0.8.  Beyond the top or the bottom wall it sets y
    to the wall and multiplies [vy] by -0.8, whatever x is. *)
Theorem updateBall_walls (cfg : GameConfig) (ball : Ball) :
  2 * radius ball <= fieldWidth cfg ->
  2 * radius ball <= fieldHeight cfg ->
  let px := x (ballPosition ball) + x (ballVelocity ball) in
  let py := y (ballPosition ball) + y (ballVelocity ball) in
  let slow :=
    Rltb (Physics.magnitude {| x := x (ballVelocity ball) * 0.985;
                               y := y (ballVelocity ball) * 0.985 |}) 0.1 in
  let vx := if slow then 0 else x (ballVelocity ball) * 0.985 in
  let vy := if slow then 0 else y (ballVelocity ball) * 0.985 in
  let inBand := Physics.goalTop cfg < py < Physics.goalBottom cfg in
  let ball' := Physics.updateBall cfg ball in
  (px - radius ball < 0 \/ px + radius ball > fieldWidth cfg ->
   inBand ->
   x (ballPosition ball') = px /\ x (ballVelocity ball') = vx) /\
  (px - radius ball < 0 -> ~ inBand ->
   x (ballPosition ball') = radius ball /\ x (ballVelocity ball') = vx * -0.8) /\
  (px + radius ball > fieldWidth cfg -> ~ inBand ->
   x (ballPosition ball') = fieldWidth cfg - radius ball /\
   x (ballVelocity ball') = vx * -0.8) /\
  (py - radius ball < 0 ->
   y (ballPosition ball') = radius ball /\ y (ballVelocity ball') = vy * -0.8) /\
  (py + radius ball > fieldHeight cfg ->
   y (ballPosition ball') = fieldHeight cfg - radius ball /\
   y (ballVelocity ball') = vy * -0.8) /\
  radius ball' = radius ball.
Proof.
  intros Hw Hh px py slow vx vy inBand ball'.
  unfold ball', Physics.updateBall.
  fold px py slow. fold vx vy.
  clearbody slow. clearbody vx vy. clearbody px py.
  unfold inBand. clear inBand ball'.
  cbv beta iota.
  repeat split; intros; case_comparisons; try reflexivity; try lra.
Qed.

Lemma updateBall_walls_witness :
  let ball :=
    {| ballPosition := {| x := 10; y := 300 |};
       ballVelocity := {| x := -5; y := 0 |}; radius := 15 |} in
  x (ballPosition (Physics.updateBall gameConfig ball)) = 10 + -5 /\
  x (ballVelocity (Physics.updateBall gameConfig ball)) =
    (if Rltb (Physics.magnitude {| x := -5 * 0.985; y := 0 * 0.985 |}) 0.1
     then 0 else -5 * 0.985).
Proof.
  intros ball.
  apply (proj1 (updateBall_walls gameConfig ball
                  ltac:(cbn; lra) ltac:(cbn; lra))).
  - left. cbn. lra.
  - unfold Physics.goalTop, Physics.goalBottom. cbn. lra.
Defined.

(** ** update: the countdown *)

Lemma update_counting_down (g : Game) :
  (0 < countdown (state g))%Z ->
  update g =
    (let g' := withState g (withCountdown (state g) (countdown (state g) - 1)) in
     if isHosting g then send g' (game_state (state g')) else g').
Proof.
  intros H. unfold update.
  destruct (countdown (state g) >? 0)%Z eqn:E; [reflexivity | lia].
Qed.

(** C5.  On a tick with [countdown > 0] the update step lowers [countdown]
    by exactly one and runs no physics: the players (positions, velocities,
    cooldowns and all), the ball and the score are what they were.  The host
    additionally sends the full state, a guest sends nothing. *)
Theorem update_freezes_during_countdown (g : Game) :
  (0 < countdown (state g))%Z ->
  countdown (state (update g)) = (countdown (state g) - 1)%Z /\
  players (state (update g)) = players (state g) /\
  ball (state (update g)) = ball (state g) /\
  score (state (update g)) = score (state g) /\
  isPlaying (state (update g)) = isPlaying (state g) /\
  sent (update g) =
    (if isHosting g then sent g ++ [game_state (state (update g))] else sent g).
Proof.
  intros H. rewrite (update_counting_down g H).
  destruct (isHosting g) eqn:Hh; cbn; rewrite ?Hh; cbn; repeat split; reflexivity.
Qed.

Lemma update_freezes_during_countdown_witness :
  let g :=
    {| state :=
         {| players := []; ball := createBall gameConfig;
            score := {| red := 1; blue := 0 |}; isPlaying := true;
            countdown := 120 |};
       input := {| up := true; down := false; left := false; right := true;
                   kick := false |};
       localPlayerId := "hax-ABC123"; gamePhase := playing;
       isHosting := true; sent := [] |} in
  countdown (state (update g)) = (countdown (state g) - 1)%Z /\
  players (state (update g)) = players (state g) /\
  ball (state (update g)) = ball (state g) /\
  score (state (update g)) = score (state g) /\
  isPlaying (state (update g)) = isPlaying (state g) /\
  sent (update g) =
    (if isHosting g then sent g ++ [game_state (state (update g))] else sent g).
Proof.
  intros g. apply (update_freezes_during_countdown g). cbn. lia.
Defined.

(** ** handlePlayerUpdate *)

Lemma map_get_split (key : string) (m : list (string * Player)) (v : Player) :
  map_get key m = Some v ->
  exists before after,
    m = before ++ (key, v) :: after /\
    map_get key before = None /\
    forall f, map_modify key f m = before ++ (key, f v) :: after.
Proof.
  induction m as [| [k p] rest IH]; cbn; intros H; [discriminate H |].
  destruct (String.eqb k key) eqn:E.
  - apply String.eqb_eq in E. subst k. injection H as ->.
    exists [], rest. repeat split.
  - destruct (IH H) as (before & after & Hm & Hb & Hf).
    exists ((k, p) :: before), after. cbn. rewrite E. repeat split.
    + rewrite Hm. reflexivity.
    + exact Hb.
    + intros f. rewrite Hf. reflexivity.
Qed.

Lemma map_get_modify_same (key : string) (f : Player -> Player)
    (m : list (string * Player)) (v : Player) :
  map_get key m = Some v -> map_get key (map_modify key f m) = Some (f v).
Proof.
  induction m as [| [k p] rest IH]; cbn; intros H; [discriminate H |].
  destruct (String.eqb k key) eqn:E; cbn; rewrite E.
  - injection H as ->. reflexivity.
  - apply IH. exact H.
Qed.

Lemma map_get_modify_other (key other : string) (f : Player -> Player)
    (m : list (string * Player)) :
  other <> key -> map_get other (map_modify key f m) = map_get other m.
Proof.
  intros Hne. induction m as [| [k p] rest IH]; cbn; [reflexivity |].
  destruct (String.eqb k key) eqn:E; cbn.
  - apply String.eqb_eq in E. subst k.
    destruct (String.eqb key other) eqn:E2; [| reflexivity].
    apply String.eqb_eq in E2. congruence.
  - rewrite IH. reflexivity.
Qed.

Lemma map_modify_keys (key : string) (f : Player -> Player)
    (m : list (string * Player)) :
  map fst (map_modify key f m) = map fst m.
Proof.
  induction m as [| [k p] rest IH]; cbn; [reflexivity |].
  destruct (String.eqb k key); cbn; [reflexivity | rewrite IH; reflexivity].
Qed.

(** The caller of [kickWithExtendedRange] raises [isKicking] itself, before
    the call, and the call keeps the flag. *)
Lemma kickWithExtendedRange_isKicking (cfg : GameConfig) (player : Player) (ball : Ball) :
  isKicking (snd (fst (Physics.kickWithExtendedRange cfg player ball)))
    = isKicking player.
Proof.
  unfold Physics.kickWithExtendedRange.
  destruct (Rltb (Physics.distance (position player) (ballPosition ball))
              (playerRadius cfg + radius ball + 60)); reflexivity.
Qed.

Lemma handleRemoteKick_marks_isKicking (g : Game) (playerId : string) (player : Player) :
  map_get playerId (players (state g)) = Some player ->
  exists player',
    map_get playerId (players (state (handleRemoteKick g playerId))) = Some player' /\
    isKicking player' = true.
Proof.
  intros Hget. unfold handleRemoteKick. rewrite Hget.
  destruct (isHosting g).
  - pose proof (kickWithExtendedRange_isKicking gameConfig
                  (setIsKicking player true) (ball (state g))) as Hk.
    destruct (Physics.kickWithExtendedRange gameConfig
                (setIsKicking player true) (ball (state g))) as [[ok player'] b].
    cbn [fst snd] in Hk. cbn [state players withState withBall withPlayers].
    rewrite (map_get_modify_same _ _ _ _ Hget).
    exists player'. split; [reflexivity | exact Hk].
  - cbn [state players withState withPlayers].
    rewrite (map_get_modify_same _ _ _ _ Hget).
    exists (setIsKicking player true). split; reflexivity.
Qed.

(** C9.  A [player-update] message whose id is the id of the local player,
    or the id of no player in the map, leaves the whole game as it was.  Any
    other message overwrites [position], [velocity], [team] and [isKicking]
    of the player stored under its id with the data of the message; that
    player's [kickCooldown] (and [id] and [name]), every other entry of the
    map and the order of the entries, the ball, the score and all the rest
    of the game are what they were. *)
Theorem handlePlayerUpdate_frame (g : Game) (data : PlayerUpdate) :
  (msgId data = localPlayerId g \/ map_get (msgId data) (players (state g)) = None ->
   handlePlayerUpdate g data = g) /\
  (forall player,
     msgId data <> localPlayerId g ->
     map_get (msgId data) (players (state g)) = Some player ->
     let g' := handlePlayerUpdate g data in
     let player' :=
       {| id := id player;
          position := msgPosition data;
          velocity := msgVelocity data;
          team := msgTeam data;
          name := name player;
          isKicking := msgIsKicking data;
          kickCooldown := kickCooldown player |} in
     map_get (msgId data) (players (state g')) = Some player' /\
     (forall other, other <> msgId data ->
        map_get other (players (state g')) = map_get other (players (state g))) /\
     (exists before after,
        players (state g) = before ++ (msgId data, player) :: after /\
        players (state g') = before ++ (msgId data, player') :: after) /\
     ball (state g') = ball (state g) /\
     score (state g') = score (state g) /\
     isPlaying (state g') = isPlaying (state g) /\
     countdown (state g') = countdown (state g) /\
     g' = withState g (withPlayers (state g) (players (state g')))).
Proof.
  split.
  - intros [Hl | Hn]; unfold handlePlayerUpdate.
    + destruct (map_get (msgId data) (players (state g))); [| reflexivity].
      rewrite Hl, String.eqb_refl. reflexivity.
    + rewrite Hn. reflexivity.
  - intros player Hne Hget g' player'.
    assert (Hg : g' = withState g
                        (withPlayers (state g)
                           (map_modify (msgId data)
                              (fun p =>
                                 {| id := id p;
                                    position := msgPosition data;
                                    velocity := msgVelocity data;
                                    team := msgTeam data;
                                    name := name p;
                                    isKicking := msgIsKicking data;
                                    kickCooldown := kickCooldown p |})
                              (players (state g))))).
    { unfold g', handlePlayerUpdate. rewrite Hget.
      destruct (String.eqb (msgId data) (localPlayerId g)) eqn:E; [| reflexivity].
      apply String.eqb_eq in E. contradiction. }
    rewrite Hg. cbn [state players ball score isPlaying countdown withState withPlayers].
    split; [rewrite (map_get_modify_same _ _ _ _ Hget); reflexivity |].
    split; [intros other Ho; apply map_get_modify_other; exact Ho |].
    split; [| repeat split].
    destruct (map_get_split _ _ _ Hget) as (before & after & Hm & _ & Hf).
    exists before, after. split; [exact Hm | rewrite Hf; reflexivity].
Qed.

Lemma handlePlayerUpdate_frame_witness :
  let remote :=
    {| id := "guest"; position := {| x := 850; y := 300 |};
       velocity := {| x := 0; y := 0 |}; team := Blue; name := "Guest";
       isKicking := false; kickCooldown := 12 |} in
  let g :=
    {| state :=
         {| players := [("guest"%string, remote)]; ball := createBall gameConfig;
            score := {| red := 0; blue := 0 |}; isPlaying := true;
            countdown := 0 |};
       input := {| up := false; down := false; left := false; right := false;
                   kick := false |};
       localPlayerId := "hax-ABC123"; gamePhase := playing;
       isHosting := true; sent := [] |} in
  let data :=
    {| msgId := "guest"; msgPosition := {| x := 840; y := 310 |};
       msgVelocity := {| x := -4; y := 1 |}; msgTeam := Red;
       msgName := "Guest"; msgIsKicking := true |} in
  map_get "guest" (players (state (handlePlayerUpdate g data))) =
    Some {| id := "guest"; position := {| x := 840; y := 310 |};
            velocity := {| x := -4; y := 1 |}; team := Red; name := "Guest";
            isKicking := true; kickCooldown := 12 |}.
Proof.
  intros remote g data.
  apply (proj2 (handlePlayerUpdate_frame g data) remote).
  - intros H. discriminate H.
  - reflexivity.
Defined.

(** ** update: the score *)

Lemma updateLocalPlayer_frame (g : Game) :
  score (state (updateLocalPlayer g)) = score (state g) /\
  ball (state (updateLocalPlayer g)) = ball (state g) /\
  countdown (state (updateLocalPlayer g)) = countdown (state g) /\
  isHosting (updateLocalPlayer g) = isHosting g.
Proof.
  unfold updateLocalPlayer.
  destruct (map_get (localPlayerId g) (players (state g))); repeat split.
Qed.

Lemma hostGoalCheck_state (g : Game) :
  state (hostGoalCheck g) =
    match fst (Physics.checkGoal gameConfig (ball (state g))) with
    | Some t =>
        withCountdown
          (resetPositions gameConfig
             (withScore (state g) (incrementScore (score (state g)) t)))
          120
    | None => state g
    end.
Proof.
  unfold hostGoalCheck.
  pose proof (checkGoal_ball gameConfig (ball (state g))) as Hb.
  destruct (Physics.checkGoal gameConfig (ball (state g))) as [scorer b].
  cbn [fst snd] in *. subst b.
  destruct scorer as [t |]; cbn; [reflexivity |].
  destruct (state g); reflexivity.
Qed.

(** The state after a tick outside the countdown, on the host. *)
Lemma update_host_physics (g : Game) :
  (countdown (state g) <= 0)%Z -> isHosting g = true ->
  update g = hostGoalCheck (hostPhysics (updateLocalPlayer g)).
Proof.
  intros Hc Hh. unfold update.
  destruct (countdown (state g) >? 0)%Z eqn:E; [lia |].
  destruct (updateLocalPlayer_frame g) as (_ & _ & _ & Hhost).
  rewrite Hhost, Hh. reflexivity.
Qed.

Lemma hostPhysics_score (g : Game) :
  score (state (hostPhysics g)) = score (state g).
Proof. reflexivity. Qed.

Lemma incrementScore_grows (s : Score) (t : Team) :
  (red s <= red (incrementScore s t))%Z /\ (blue s <= blue (incrementScore s t))%Z.
Proof. destruct t; cbn; lia. Qed.

Lemma update_score_grows (g : Game) :
  (red (score (state g)) <= red (score (state (update g))))%Z /\
  (blue (score (state g)) <= blue (score (state (update g))))%Z.
Proof.
  unfold update.
  destruct (countdown (state g) >? 0)%Z.
  - destruct (isHosting g) eqn:Hh; cbn; rewrite ?Hh; cbn; lia.
  - destruct (updateLocalPlayer_frame g) as (Hs & _ & _ & Hhost).
    rewrite Hhost. destruct (isHosting g).
    + rewrite hostGoalCheck_state.
      destruct (fst (Physics.checkGoal gameConfig _)) as [t |].
      * cbn [score withCountdown resetPositions withScore].
        rewrite hostPhysics_score, Hs. apply incrementScore_grows.
      * rewrite hostPhysics_score, Hs. lia.
    + rewrite Hs. lia.
Qed.

Lemma ticks_score_grows (inputs : list InputState) (g : Game) :
  (red (score (state g)) <= red (score (state (ticks g inputs))))%Z /\
  (blue (score (state g)) <= blue (score (state (ticks g inputs))))%Z.
Proof.
  revert g. induction inputs as [| i rest IH]; intros g; cbn [ticks]; [lia |].
  specialize (IH (update (withInput g i))).
  pose proof (update_score_grows (withInput g i)) as Hu.
  cbn [state withInput] in Hu. lia.
Qed.

(** During the countdown the ticks only count down. *)
Lemma ticks_counting_down (inputs : list InputState) (g : Game) :
  (Z.of_nat (List.length inputs) <= countdown (state g))%Z ->
  state (ticks g inputs) =
    withCountdown (state g) (countdown (state g) - Z.of_nat (List.length inputs)).
Proof.
  revert g. induction inputs as [| i rest IH]; intros g Hlen.
  - cbn [ticks List.length Z.of_nat]. unfold withCountdown.
    rewrite Z.sub_0_r. destruct (state g); reflexivity.
  - cbn [ticks]. cbn [List.length] in *.
    assert (Hpos : (0 < countdown (state (withInput g i)))%Z) by (cbn; lia).
    assert (Hst : state (update (withInput g i))
                  = withCountdown (state g) (countdown (state g) - 1)).
    { rewrite (update_counting_down _ Hpos).
      cbn. destruct (isHosting g); reflexivity. }
    rewrite IH; rewrite Hst; cbn [countdown withCountdown]; [| lia].
    unfold withCountdown; cbn. f_equal. lia.
Qed.

Lemma checkGoal_createBall :
  fst (Physics.checkGoal gameConfig (createBall gameConfig)) = None.
Proof.
  apply checkGoal_none. cbn. lra.
Qed.

(** C4.  Over any sequence of ticks neither count of the score goes down.
    On a host tick outside the countdown in which [checkGoal] reports a
    scorer for the ball as the physics of that tick left it, the scorer's
    count goes up by exactly one and the other count stays; the ball is the
    one [createBall] makes, at the centre of the field with zero velocity,
    and [countdown] is 120.  [checkGoal] reports no scorer for that ball,
    and through the 120 ticks that follow the score and the ball stay as
    they are.  A tick in the countdown, on a guest, or in which [checkGoal]
    reports no scorer leaves the score as it was. *)
Theorem score_monotone_one_goal_one_point (g : Game) :
  (forall inputs,
     (red (score (state g)) <= red (score (state (ticks g inputs))))%Z /\
     (blue (score (state g)) <= blue (score (state (ticks g inputs))))%Z) /\
  (forall scorer,
     isHosting g = true ->
     (countdown (state g) <= 0)%Z ->
     fst (Physics.checkGoal gameConfig
            (ball (state (hostPhysics (updateLocalPlayer g))))) = Some scorer ->
     let g' := update g in
     match scorer with
     | Red =>
         red (score (state g')) = (red (score (state g)) + 1)%Z /\
         blue (score (state g')) = blue (score (state g))
     | Blue =>
         blue (score (state g')) = (blue (score (state g)) + 1)%Z /\
         red (score (state g')) = red (score (state g))
     end /\
     ball (state g') = createBall gameConfig /\
     ballPosition (ball (state g'))
       = {| x := fieldWidth gameConfig / 2; y := fieldHeight gameConfig / 2 |} /\
     ballVelocity (ball (state g')) = {| x := 0; y := 0 |} /\
     countdown (state g') = 120%Z /\
     fst (Physics.checkGoal gameConfig (ball (state g'))) = None /\
     (forall inputs,
        (List.length inputs <= 120)%nat ->
        score (state (ticks g' inputs)) = score (state g') /\
        ball (state (ticks g' inputs)) = ball (state g'))) /\
  (isHosting g = false \/ (0 < countdown (state g))%Z \/
   fst (Physics.checkGoal gameConfig
          (ball (state (hostPhysics (updateLocalPlayer g))))) = None ->
   score (state (update g)) = score (state g)).
Proof.
  destruct (updateLocalPlayer_frame g) as (Hs & _ & _ & Hhost).
  split; [intros inputs; apply ticks_score_grows |]. split.
  - intros scorer Hh Hc Hgoal g'.
    assert (Hst : state g' =
                  withCountdown
                    (resetPositions gameConfig
                       (withScore (state (hostPhysics (updateLocalPlayer g)))
                          (incrementScore (score (state g)) scorer)))
                    120).
    { unfold g'. rewrite (update_host_physics g Hc Hh), hostGoalCheck_state, Hgoal.
      rewrite hostPhysics_score, Hs. reflexivity. }
    assert (Hball : ball (state g') = createBall gameConfig)
      by (rewrite Hst; reflexivity).
    split; [rewrite Hst; destruct scorer; cbn; split; reflexivity |].
    split; [exact Hball |].
    split; [rewrite Hball; reflexivity |].
    split; [rewrite Hball; reflexivity |].
    split; [rewrite Hst; reflexivity |].
    split; [rewrite Hball; apply checkGoal_createBall |].
    intros inputs Hlen.
    rewrite ticks_counting_down by (rewrite Hst; cbn [countdown withCountdown]; lia).
    split; reflexivity.
  - intros [Hh | [Hc | Hnone]].
    + unfold update. destruct (countdown (state g) >? 0)%Z.
      * cbn [isHosting withState]. rewrite Hh. reflexivity.
      * rewrite Hhost, Hh. exact Hs.
    + rewrite (update_counting_down g Hc).
      destruct (isHosting g) eqn:Hh; cbn; rewrite ?Hh; reflexivity.
    + unfold update. destruct (countdown (state g) >? 0)%Z.
      * destruct (isHosting g) eqn:Hh; cbn; rewrite ?Hh; reflexivity.
      * rewrite Hhost. destruct (isHosting g).
        -- rewrite hostGoalCheck_state, Hnone, hostPhysics_score. exact Hs.
        -- exact Hs.
Qed.

Lemma score_monotone_one_goal_one_point_witness :
  let g :=
    {| state :=
         {| players := [];
            ball := {| ballPosition := {| x := 10; y := 300 |};
                       ballVelocity := {| x := -5; y := 0 |};
                       radius := 15 |};
            score := {| red := 0; blue := 0 |}; isPlaying := true;
            countdown := 0 |};
       input := {| up := false; down := false; left := false; right := false;
                   kick := false |};
       localPlayerId := "hax-ABC123"; gamePhase := playing;
       isHosting := true; sent := [] |} in
  blue (score (state (update g))) = 1%Z /\
  red (score (state (update g))) = 0%Z /\
  countdown (state (update g)) = 120%Z.
Proof.
  intros g.
  assert (Hgoal : fst (Physics.checkGoal gameConfig
                         (ball (state (hostPhysics (updateLocalPlayer g)))))
                  = Some Blue).
  { change (ball (state (hostPhysics (updateLocalPlayer g))))
      with (Physics.updateBall gameConfig (ball (state g))).
    apply checkGoal_blue.
    unfold Physics.updateBall, Physics.goalTop, Physics.goalBottom.
    cbn [state ball g ballPosition ballVelocity radius x y
         fieldWidth fieldHeight goalWidth gameConfig].
    case_comparisons; lra. }
  destruct (proj1 (proj2 (score_monotone_one_goal_one_point g)) Blue
              eq_refl ltac:(cbn; lia) Hgoal)
    as ((Hb & Hr) & _ & _ & _ & Hc & _).
  split; [exact Hb |]. split; [exact Hr | exact Hc].
Defined.

(** ** The room id *)



(** An id that does not carry the prefix receives it twice: the prefix that
    is added is in lower case, and the replacement that follows looks for
    it in upper case. *)
Lemma joinRoom_without_prefix (roomId : string) :
  Str.startsWith (Str.trim (Str.toUpperCase roomId)) "HAX-" = false ->
  Network.joinRoom roomId
    = String.append "hax-hax-"
        (Str.replace "HAX-" EmptyString (Str.trim (Str.toUpperCase roomId))).
Proof.
  intros H. unfold Network.joinRoom. rewrite H. cbn [negb].
  reflexivity.
Qed.

(** C2, at the id [abc123].  Entered without the prefix, the id reaches
    [joinRoom] as [ABC123] and the connection is attempted with
    [hax-hax-ABC123], not with [hax-ABC123]; entered as [hax-abc123] it is
    attempted with [hax-ABC123]. *)
Theorem joinRoom_doubles_missing_prefix :
  joinBtnClick "abc123" = Some "hax-hax-ABC123"%string /\
  Network.joinRoom "abc123" = "hax-hax-ABC123"%string /\
  joinBtnClick "abc123" <> Some "hax-ABC123"%string /\
  joinBtnClick "hax-abc123" = Some "hax-ABC123"%string /\
  joinBtnClick "  HAX-abc123 " = Some "hax-ABC123"%string.
Proof.
  repeat split; try reflexivity. intros H. discriminate H.
Qed.

(** * Further properties of the physics engine *)


Lemma magnitude_le_components (a b c d : R) :
  a * a <= c * c -> b * b <= d * d ->
  Physics.magnitude {| x := a; y := b |} <= Physics.magnitude {| x := c; y := d |}.
Proof.
  intros Ha Hb. unfold Physics.magnitude; cbn [x y].
  apply sqrt_le_1; nra.
Qed.



(** ** updatePlayer: speed and cooldown *)



Lemma updatePlayer_kickCooldown (cfg : GameConfig) (player : Player) (i : InputState) :
  kickCooldown (Physics.updatePlayer cfg player i)
    = (if (kickCooldown player >? 0)%Z then kickCooldown player - 1
       else kickCooldown player)%Z.
Proof. reflexivity. Qed.

Lemma updatePlayerMany_kickCooldown
    (cfg : GameConfig) (inputs : list InputState) (player : Player) :
  (0 <= kickCooldown player)%Z ->
  kickCooldown (Physics.updatePlayerMany cfg player inputs)
    = Z.max 0 (kickCooldown player - Z.of_nat (List.length inputs)).
Proof.
  revert player. induction inputs as [| i rest IH]; intros player Hc.
  - cbn [Physics.updatePlayerMany List.length]. lia.
  - cbn [Physics.updatePlayerMany List.length].
    pose proof (updatePlayer_kickCooldown cfg player i) as Hstep.
    rewrite IH; rewrite Hstep; destruct (kickCooldown player >? 0)%Z eqn:E; lia.
Qed.

(** X3.  A cooldown that is not negative goes down by one on every call of
    [updatePlayer] until it is 0 and stays there: after [n] calls it is
    [max 0 (kickCooldown - n)], never negative and never above where it
    started. *)
Theorem updatePlayer_cooldown_runs_down
    (cfg : GameConfig) (inputs : list InputState) (player : Player) :
  (0 <= kickCooldown player)%Z ->
  kickCooldown (Physics.updatePlayerMany cfg player inputs)
    = Z.max 0 (kickCooldown player - Z.of_nat (List.length inputs)) /\
  (0 <= kickCooldown (Physics.updatePlayerMany cfg player inputs)
     <= kickCooldown player)%Z.
Proof.
  intros Hc. rewrite (updatePlayerMany_kickCooldown cfg inputs player Hc).
  split; [reflexivity | lia].
Qed.

Lemma updatePlayer_cooldown_runs_down_witness :
  kickCooldown
    (Physics.updatePlayerMany gameConfig
       {| id := "host"; position := {| x := 500; y := 300 |};
          velocity := {| x := 0; y := 0 |}; team := Red; name := "Player";
          isKicking := false; kickCooldown := 2 |}
       [ {| up := true; down := false; left := false; right := false; kick := false |};
         {| up := true; down := false; left := false; right := false; kick := false |};
         {| up := false; down := false; left := false; right := false; kick := false |} ])
    = Z.max 0 (2 - Z.of_nat 3).
Proof.
  apply (updatePlayer_cooldown_runs_down gameConfig). cbn. lia.
Defined.

Lemma kick_success_player (cfg : GameConfig) (player : Player) (b : Ball) :
  fst (fst (Physics.kick cfg player b)) = true ->
  snd (fst (Physics.kick cfg player b)) = setIsKicking (setKickCooldown player 20) true.
Proof.
  unfold Physics.kick.
  destruct (kickCooldown player >? 0)%Z; [intros H; discriminate H |].
  destruct (Rltb _ _); [reflexivity | intros H; discriminate H].
Qed.

(** X4.  After a kick that succeeded, [kick] fails and changes nothing for
    the player as long as [updatePlayer] has run fewer than 20 times,
    wherever the ball is; after 20 or more calls the cooldown is 0 and the
    gate is open again. *)
Theorem kick_cooldown_gate (cfg : GameConfig) (player : Player) (b : Ball) :
  fst (fst (Physics.kick cfg player b)) = true ->
  forall (inputs : list InputState) (b' : Ball),
    let later :=
      Physics.updatePlayerMany cfg (snd (fst (Physics.kick cfg player b))) inputs in
    ((List.length inputs < 20)%nat -> Physics.kick cfg later b' = (false, later, b')) /\
    ((20 <= List.length inputs)%nat -> kickCooldown later = 0%Z).
Proof.
  intros Hk inputs b' later.
  assert (Hc : kickCooldown later
               = Z.max 0 (20 - Z.of_nat (List.length inputs))).
  { unfold later. rewrite (kick_success_player cfg player b Hk).
    rewrite updatePlayerMany_kickCooldown; cbn [kickCooldown setIsKicking setKickCooldown];
      [reflexivity | lia]. }
  split; intros Hlen.
  - apply kick_on_cooldown. lia.
  - lia.
Qed.

Lemma kick_cooldown_gate_witness :
  let player :=
    {| id := "host"; position := {| x := 470; y := 300 |};
       velocity := {| x := 0; y := 0 |}; team := Red; name := "Player";
       isKicking := false; kickCooldown := 0 |} in
  let i := {| up := false; down := false; left := false; right := false;
              kick := false |} in
  let later :=
    Physics.updatePlayerMany gameConfig
      (snd (fst (Physics.kick gameConfig player (createBall gameConfig)))) [i; i] in
  Physics.kick gameConfig later (createBall gameConfig)
    = (false, later, createBall gameConfig).
Proof.
  intros player i later.
  assert (Hd : Physics.distance (position player) (ballPosition (createBall gameConfig))
               < playerRadius gameConfig + radius (createBall gameConfig) + 25).
  { apply magnitude_lt; cbn; lra. }
  assert (Hk : fst (fst (Physics.kick gameConfig player (createBall gameConfig))) = true).
  { rewrite (kick_in_range gameConfig player (createBall gameConfig)
               ltac:(cbn; lia) Hd). reflexivity. }
  apply (proj1 (kick_cooldown_gate gameConfig player (createBall gameConfig) Hk
                  [i; i] (createBall gameConfig))).
  cbn. lia.
Defined.

(** ** updateBall: the field, the speed, the ball at rest *)

(** X5.  A ball that fits between opposite walls is, after [updateBall],
    between the top and the bottom wall, and between the left and the right
    wall unless its integrated y coordinate lies strictly inside the goal
    band. *)
Theorem updateBall_stays_in_field (cfg : GameConfig) (b : Ball) :
  2 * radius b <= fieldWidth cfg ->
  2 * radius b <= fieldHeight cfg ->
  let py := y (ballPosition b) + y (ballVelocity b) in
  let b' := Physics.updateBall cfg b in
  radius b <= y (ballPosition b') <= fieldHeight cfg - radius b /\
  (radius b <= x (ballPosition b') <= fieldWidth cfg - radius b \/
   Physics.goalTop cfg < py < Physics.goalBottom cfg).
Proof.
  intros Hw Hh py b'. unfold b', Physics.updateBall. fold py.
  cbv zeta. clearbody py.
  split.
  - case_comparisons; lra.
  - destruct (Rlt_dec (Physics.goalTop cfg) py) as [Ht | Ht];
      [destruct (Rlt_dec py (Physics.goalBottom cfg)) as [Hb | Hb];
         [right; lra |] |];
      left; case_comparisons; lra.
Qed.

Lemma updateBall_stays_in_field_witness :
  let b :=
    {| ballPosition := {| x := 20; y := 590 |};
       ballVelocity := {| x := -12; y := 9 |}; radius := 15 |} in
  radius b <= y (ballPosition (Physics.updateBall gameConfig b))
    <= fieldHeight gameConfig - radius b /\
  (radius b <= x (ballPosition (Physics.updateBall gameConfig b))
     <= fieldWidth gameConfig - radius b \/
   Physics.goalTop gameConfig < y (ballPosition b) + y (ballVelocity b)
     < Physics.goalBottom gameConfig).
Proof.
  intros b. apply (updateBall_stays_in_field gameConfig b); cbn; lra.
Defined.

(** X6.  [updateBall] never makes the ball faster: friction, the snap and
    the reflections only take speed away. *)
Theorem updateBall_never_speeds_up (cfg : GameConfig) (b : Ball) :
  Physics.magnitude (ballVelocity (Physics.updateBall cfg b))
    <= Physics.magnitude (ballVelocity b).
Proof.
  unfold Physics.updateBall. cbv zeta.
  destruct (ballVelocity b) as [vx vy]; cbn [x y].
  case_comparisons; apply magnitude_le_components; nra.
Qed.

(** X7.  A ball at rest that touches no wall is left exactly as it is. *)
Theorem updateBall_at_rest (cfg : GameConfig) (b : Ball) :
  ballVelocity b = {| x := 0; y := 0 |} ->
  radius b <= x (ballPosition b) <= fieldWidth cfg - radius b ->
  radius b <= y (ballPosition b) <= fieldHeight cfg - radius b ->
  Physics.updateBall cfg b = b.
Proof.
  destruct b as [[px py] [vx vy] r]; cbn [ballPosition ballVelocity radius x y].
  intros Hv Hx Hy. injection Hv as -> ->.
  unfold Physics.updateBall; cbv zeta;
    cbn [ballPosition ballVelocity radius x y].
  case_comparisons; try lra; repeat f_equal; lra.
Qed.

Lemma updateBall_at_rest_witness :
  Physics.updateBall gameConfig (createBall gameConfig) = createBall gameConfig.
Proof.
  apply updateBall_at_rest; cbn; [reflexivity | lra | lra].
Defined.

(** ** The collisions *)



(** Without overlap the answer is false and the ball is not touched. *)
Lemma handlePlayerBallCollision_apart (cfg : GameConfig) (player : Player) (b : Ball) :
  playerRadius cfg + radius b <= Physics.distance (position player) (ballPosition b) ->
  Physics.handlePlayerBallCollision cfg player b = (false, b).
Proof.
  intros H. unfold Physics.handlePlayerBallCollision. cbv zeta.
  rewrite (proj2 (Rltb_false _ _) H). reflexivity.
Qed.




(** * Further properties of the session controller *)

(** ** resetPositions *)

Lemma resetPlayers_idempotent (cfg : GameConfig) (ps : list (string * Player))
    (redIndex blueIndex : nat) :
  resetPlayers cfg redIndex blueIndex (resetPlayers cfg redIndex blueIndex ps)
    = resetPlayers cfg redIndex blueIndex ps.
Proof.
  revert redIndex blueIndex.
  induction ps as [| [k p] rest IH]; intros redIndex blueIndex; [reflexivity |].
  cbn [resetPlayers]. destruct (team p) eqn:Et; cbn [resetPlayers setPosition team];
    rewrite Et, IH; reflexivity.
Qed.

Lemma resetPlayers_frame (cfg : GameConfig) (ps : list (string * Player))
    (redIndex blueIndex : nat) :
  map (fun e => (fst e, id (snd e), team (snd e), name (snd e),
                 isKicking (snd e), kickCooldown (snd e)))
      (resetPlayers cfg redIndex blueIndex ps)
    = map (fun e => (fst e, id (snd e), team (snd e), name (snd e),
                     isKicking (snd e), kickCooldown (snd e))) ps /\
  Forall (fun e => velocity (snd e) = {| x := 0; y := 0 |})
    (resetPlayers cfg redIndex blueIndex ps).
Proof.
  revert redIndex blueIndex.
  induction ps as [| [k p] rest IH]; intros redIndex blueIndex;
    [split; [reflexivity | constructor] |].
  cbn [resetPlayers].
  destruct (team p) eqn:Et; cbn [map fst snd setPosition id team name isKicking kickCooldown];
    rewrite Et;
    (split; [f_equal; apply IH | constructor; [reflexivity | apply IH]]).
Qed.

(** X11.  [resetPositions] puts the ball [createBall] makes in play and
    stops every player; it keeps the entries of the map in their order with
    their [id], [team], [name], [isKicking] and [kickCooldown], and the
    score, [isPlaying] and [countdown].  The slots depend on teams and
    order only, so a second call changes nothing. *)
Theorem resetPositions_effect (cfg : GameConfig) (st : GameState) :
  let st' := resetPositions cfg st in
  ball st' = createBall cfg /\
  Forall (fun e => velocity (snd e) = {| x := 0; y := 0 |}) (players st') /\
  map (fun e => (fst e, id (snd e), team (snd e), name (snd e),
                 isKicking (snd e), kickCooldown (snd e))) (players st')
    = map (fun e => (fst e, id (snd e), team (snd e), name (snd e),
                     isKicking (snd e), kickCooldown (snd e))) (players st) /\
  (score st', isPlaying st', countdown st') = (score st, isPlaying st, countdown st) /\
  resetPositions cfg st' = st'.
Proof.
  intros st'. unfold st', resetPositions; cbn [players ball score isPlaying countdown].
  destruct (resetPlayers_frame cfg (players st) 0 0) as [Hf Hv].
  repeat split; try assumption.
  rewrite resetPlayers_idempotent. reflexivity.
Qed.

Lemma slot_in_bounds (index : nat) :
  (index < 6)%nat ->
  25 <= 150 + INR (index mod 2) * 80 <= 975 /\
  25 <= 1000 - 150 - INR (index mod 2) * 80 <= 975 /\
  25 <= slotY gameConfig index <= 575.
Proof.
  intros H. unfold slotY.
  do 6 (destruct index as [| index]; [cbn; lra |]). lia.
Qed.

Lemma teamCount_cons (t : Team) (k : string) (p : Player) (m : list (string * Player)) :
  teamCount t ((k, p) :: m)
    = ((if Team_eqb (team p) t then 1 else 0) + teamCount t m)%nat.
Proof.
  unfold teamCount. cbn [map snd filter].
  destruct (Team_eqb (team p) t); reflexivity.
Qed.

Lemma resetPlayers_in_bounds (ps : list (string * Player)) (redIndex blueIndex : nat) :
  (redIndex + teamCount Red ps <= 6)%nat ->
  (blueIndex + teamCount Blue ps <= 6)%nat ->
  Forall (fun e => Physics.playerInBounds gameConfig (snd e))
    (resetPlayers gameConfig redIndex blueIndex ps).
Proof.
  revert redIndex blueIndex.
  induction ps as [| [k p] rest IH]; intros redIndex blueIndex Hr Hb; [constructor |].
  rewrite teamCount_cons in Hr, Hb. cbn [resetPlayers].
  destruct (team p); cbn [Team_eqb] in Hr, Hb.
  - constructor.
    + destruct (slot_in_bounds redIndex ltac:(lia)) as (Hx & _ & Hy).
      unfold Physics.playerInBounds;
        cbn [snd setPosition position x y playerRadius fieldWidth fieldHeight gameConfig].
      lra.
    + apply IH; lia.
  - constructor.
    + destruct (slot_in_bounds blueIndex ltac:(lia)) as (_ & Hx & Hy).
      unfold Physics.playerInBounds;
        cbn [snd setPosition position x y playerRadius fieldWidth fieldHeight gameConfig].
      lra.
    + apply IH; lia.
Qed.

(** X12.  With at most six players in each team, every kickoff slot that
    [resetPositions] hands out lies within the bounds that [updatePlayer]
    keeps.  (The seventh slot of a team has y = 610, below the field.) *)
Theorem resetPositions_in_bounds (st : GameState) :
  (teamCount Red (players st) <= 6)%nat ->
  (teamCount Blue (players st) <= 6)%nat ->
  Forall (fun e => Physics.playerInBounds gameConfig (snd e))
    (players (resetPositions gameConfig st)).
Proof.
  intros Hr Hb. unfold resetPositions; cbn [players].
  apply resetPlayers_in_bounds; cbn [Nat.add]; assumption.
Qed.

Lemma resetPositions_in_bounds_witness :
  let p t :=
    {| id := "p"; position := {| x := 0; y := 0 |};
       velocity := {| x := 3; y := 4 |}; team := t; name := "P";
       isKicking := false; kickCooldown := 0 |} in
  Forall (fun e => Physics.playerInBounds gameConfig (snd e))
    (players
       (resetPositions gameConfig
          {| players := [("a"%string, p Red); ("b"%string, p Blue); ("c"%string, p Red)];
             ball := createBall gameConfig;
             score := {| red := 0; blue := 0 |}; isPlaying := true;
             countdown := 0 |})).
Proof.
  intros p. apply resetPositions_in_bounds; cbn; lia.
Defined.

Lemma seventh_slot_out_of_bounds :
  slotY gameConfig 6 = 610 /\
  fieldHeight gameConfig - playerRadius gameConfig < slotY gameConfig 6.
Proof.
  unfold slotY. cbn. split; lra.
Qed.

(** ** The players map *)

Lemma eqb_neq_false (a b : string) : a <> b -> String.eqb a b = false.
Proof. intros H. apply String.eqb_neq. exact H. Qed.

Lemma map_get_set_same (key : string) (v : Player) (m : list (string * Player)) :
  map_get key (map_set key v m) = Some v.
Proof.
  induction m as [| [k p] rest IH]; cbn.
  - rewrite String.eqb_refl. reflexivity.
  - destruct (String.eqb k key) eqn:E; cbn; rewrite E; [reflexivity | exact IH].
Qed.

Lemma map_get_set_other (key other : string) (v : Player) (m : list (string * Player)) :
  other <> key -> map_get other (map_set key v m) = map_get other m.
Proof.
  intros Hne. induction m as [| [k p] rest IH]; cbn.
  - rewrite eqb_neq_false by congruence. reflexivity.
  - destruct (String.eqb k key) eqn:E; cbn.
    + apply String.eqb_eq in E. subst k.
      rewrite eqb_neq_false by congruence. reflexivity.
    + rewrite IH. reflexivity.
Qed.

Lemma map_set_fresh (key : string) (v : Player) (m : list (string * Player)) :
  ~ In key (map fst m) -> map_set key v m = m ++ [(key, v)].
Proof.
  induction m as [| [k p] rest IH]; cbn; intros Hin; [reflexivity |].
  rewrite eqb_neq_false by tauto. rewrite IH by tauto. reflexivity.
Qed.

Lemma map_set_present (key : string) (v : Player) (m : list (string * Player)) :
  In key (map fst m) -> map fst (map_set key v m) = map fst m.
Proof.
  induction m as [| [k p] rest IH]; cbn; intros Hin; [contradiction |].
  destruct (String.eqb k key) eqn:E; cbn; [reflexivity |].
  apply String.eqb_neq in E. rewrite IH; [reflexivity | tauto].
Qed.

Lemma map_set_NoDup (key : string) (v : Player) (m : list (string * Player)) :
  NoDup (map fst m) -> NoDup (map fst (map_set key v m)).
Proof.
  intros Hnd. destruct (in_dec string_dec key (map fst m)) as [Hin | Hnin].
  - rewrite map_set_present by exact Hin. exact Hnd.
  - rewrite map_set_fresh by exact Hnin. rewrite map_app. cbn.
    apply NoDup_app; [exact Hnd | repeat constructor; intros [] |].
    intros a Ha [<- | []]. contradiction.
Qed.

Lemma map_delete_keys_incl (key : string) (m : list (string * Player)) (k : string) :
  In k (map fst (map_delete key m)) -> In k (map fst m).
Proof.
  induction m as [| [k' p] rest IH]; cbn; [tauto |].
  destruct (String.eqb k' key); cbn; tauto.
Qed.

Lemma map_delete_NoDup (key : string) (m : list (string * Player)) :
  NoDup (map fst m) -> NoDup (map fst (map_delete key m)).
Proof.
  induction m as [| [k p] rest IH]; cbn; intros Hnd; [constructor |].
  inversion Hnd as [| ? ? Hnin Hrest]; subst.
  destruct (String.eqb k key); cbn; [exact Hrest |].
  constructor; [| apply IH; exact Hrest].
  intros Hin. apply Hnin. apply (map_delete_keys_incl key). exact Hin.
Qed.

Lemma map_get_none (key : string) (m : list (string * Player)) :
  ~ In key (map fst m) -> map_get key m = None.
Proof.
  induction m as [| [k p] rest IH]; cbn; intros Hnin; [reflexivity |].
  rewrite eqb_neq_false by tauto. apply IH. tauto.
Qed.

Lemma map_get_delete_same (key : string) (m : list (string * Player)) :
  NoDup (map fst m) -> map_get key (map_delete key m) = None.
Proof.
  induction m as [| [k p] rest IH]; cbn; intros Hnd; [reflexivity |].
  inversion Hnd as [| ? ? Hnin Hrest]; subst.
  destruct (String.eqb k key) eqn:E; cbn.
  - apply String.eqb_eq in E. subst k. apply map_get_none. exact Hnin.
  - rewrite E. apply IH. exact Hrest.
Qed.

Lemma map_get_delete_other (key other : string) (m : list (string * Player)) :
  other <> key -> map_get other (map_delete key m) = map_get other m.
Proof.
  intros Hne. induction m as [| [k p] rest IH]; cbn; [reflexivity |].
  destruct (String.eqb k key) eqn:E; cbn.
  - apply String.eqb_eq in E. subst k.
    rewrite eqb_neq_false by congruence. reflexivity.
  - rewrite IH. reflexivity.
Qed.

Lemma restore_NoDup (entries acc : list (string * Player)) :
  NoDup (map fst acc) ->
  NoDup (map fst (fold_left (fun m entry => map_set (fst entry) (snd entry) m)
                    entries acc)).
Proof.
  revert acc. induction entries as [| [k p] rest IH]; intros acc Hnd; cbn; [exact Hnd |].
  apply IH. apply map_set_NoDup. exact Hnd.
Qed.

Lemma restore_unique (entries acc : list (string * Player)) :
  NoDup (map fst (acc ++ entries)) ->
  fold_left (fun m entry => map_set (fst entry) (snd entry) m) entries acc
    = acc ++ entries.
Proof.
  revert acc. induction entries as [| [k p] rest IH]; intros acc Hnd; cbn.
  - rewrite app_nil_r. reflexivity.
  - rewrite map_set_fresh.
    + rewrite IH; rewrite <- app_assoc; [reflexivity | exact Hnd].
    + rewrite map_app in Hnd. cbn in Hnd.
      apply NoDup_remove_2 in Hnd. intros Hin. apply Hnd.
      apply in_or_app. left. exact Hin.
Qed.

(** X13.  A guest that handles the [game-state] message of a host holds
    the host's state: the same entries in the same order, the same ball,
    score, [isPlaying] and [countdown].  If the snapshot is playing and the
    guest is in the lobby it moves to the playing phase, otherwise its phase
    stays. *)
Theorem handleGameState_restores (guest : Game) (snapshot : GameState) :
  NoDup (map fst (players snapshot)) ->
  state (handleGameState guest snapshot) = snapshot /\
  gamePhase (handleGameState guest snapshot)
    = (if isPlaying snapshot
       then match gamePhase guest with lobby => playing | p => p end
       else gamePhase guest).
Proof.
  intros Hnd. unfold handleGameState.
  rewrite (restore_unique (players snapshot) [] Hnd). cbn [app].
  assert (Hs : {| players := players snapshot; ball := ball snapshot;
                  score := score snapshot; isPlaying := isPlaying snapshot;
                  countdown := countdown snapshot |} = snapshot)
    by (destruct snapshot; reflexivity).
  rewrite Hs.
  destruct (isPlaying snapshot); cbn [gamePhase withState];
    [| split; reflexivity].
  destruct (gamePhase guest) eqn:Eg; cbn [gamePhase state withState withGamePhase];
    rewrite ?Eg; split; reflexivity.
Qed.

Lemma handleGameState_restores_witness :
  let p :=
    {| id := "hax-ABC123"; position := {| x := 150; y := 190 |};
       velocity := {| x := 0; y := 0 |}; team := Red; name := "Host";
       isKicking := false; kickCooldown := 0 |} in
  let snapshot :=
    {| players := [("hax-ABC123"%string, p)]; ball := createBall gameConfig;
       score := {| red := 2; blue := 1 |}; isPlaying := true; countdown := 180 |} in
  state (handleGameState (withGamePhase newGame lobby) snapshot) = snapshot /\
  gamePhase (handleGameState (withGamePhase newGame lobby) snapshot) = playing.
Proof.
  intros p snapshot.
  apply (handleGameState_restores (withGamePhase newGame lobby) snapshot).
  cbn. repeat constructor. intros [].
Defined.

(** ** update: who is in the game *)

Lemma array_set_whoIs (a : list Player) (i : nat) (v : Player) :
  nth_error (map whoIs a) i = Some (whoIs v) ->
  map whoIs (array_set i v a) = map whoIs a.
Proof.
  revert i. induction a as [| p rest IH]; intros [| i] H;
    cbn [map nth_error array_set] in *; try discriminate H; try reflexivity.
  - assert (Hp : whoIs p = whoIs v) by congruence. rewrite Hp. reflexivity.
  - rewrite IH by exact H. reflexivity.
Qed.

Lemma handlePlayerCollision_whoIs (cfg : GameConfig) (p1 p2 : Player) :
  whoIs (fst (Physics.handlePlayerCollision cfg p1 p2)) = whoIs p1 /\
  whoIs (snd (Physics.handlePlayerCollision cfg p1 p2)) = whoIs p2.
Proof.
  unfold Physics.handlePlayerCollision. cbv zeta.
  destruct (Rltb _ _ && Rgtb _ _); [| split; reflexivity].
  destruct (Rgtb _ 0); split; reflexivity.
Qed.

Lemma collidePair_whoIs (cfg : GameConfig) (a : list Player) (i j : nat) :
  map whoIs (collidePair cfg a i j) = map whoIs a.
Proof.
  unfold collidePair.
  destruct (nth_error a i) as [p1 |] eqn:E1; [| reflexivity].
  destruct (nth_error a j) as [p2 |] eqn:E2; [| reflexivity].
  destruct (handlePlayerCollision_whoIs cfg p1 p2) as [H1 H2].
  destruct (Physics.handlePlayerCollision cfg p1 p2) as [q1 q2]. cbn [fst snd] in *.
  assert (Hi : map whoIs (array_set i q1 a) = map whoIs a).
  { apply array_set_whoIs. rewrite nth_error_map, E1, H1. reflexivity. }
  rewrite array_set_whoIs; [exact Hi |].
  rewrite Hi, nth_error_map, E2, H2. reflexivity.
Qed.

Lemma fold_left_whoIs (f : list Player -> nat -> list Player) (l : list nat)
    (a : list Player) :
  (forall a i, map whoIs (f a i) = map whoIs a) ->
  map whoIs (fold_left f l a) = map whoIs a.
Proof.
  intros Hf. revert a. induction l as [| i rest IH]; intros a; cbn; [reflexivity |].
  rewrite IH. apply Hf.
Qed.

Lemma collideAll_whoIs (cfg : GameConfig) (a : list Player) :
  map whoIs (collideAll cfg a) = map whoIs a.
Proof.
  unfold collideAll. apply fold_left_whoIs. intros a' i.
  apply fold_left_whoIs. intros a'' j. apply collidePair_whoIs.
Qed.

Lemma combine_fst_snd (ks : list string) (a : list Player) :
  List.length a = List.length ks ->
  map fst (combine ks a) = ks /\ map snd (combine ks a) = a.
Proof.
  revert a. induction ks as [| k ks IH]; intros [| p a] H; cbn in *;
    try discriminate H; [split; reflexivity |].
  injection H as H. destruct (IH a H) as [H1 H2]. rewrite H1, H2. split; reflexivity.
Qed.

Lemma map_modify_whoIs (key : string) (f : Player -> Player)
    (m : list (string * Player)) :
  (forall v, map_get key m = Some v -> whoIs (f v) = whoIs v) ->
  map (fun e => whoIs (snd e)) (map_modify key f m)
    = map (fun e => whoIs (snd e)) m.
Proof.
  induction m as [| [k p] rest IH]; cbn; intros Hf; [reflexivity |].
  destruct (String.eqb k key) eqn:E; cbn.
  - rewrite Hf; [reflexivity | reflexivity].
  - rewrite IH; [reflexivity | exact Hf].
Qed.

Lemma resetPlayers_whoIs (cfg : GameConfig) (ps : list (string * Player))
    (redIndex blueIndex : nat) :
  map fst (resetPlayers cfg redIndex blueIndex ps) = map fst ps /\
  map (fun e => whoIs (snd e)) (resetPlayers cfg redIndex blueIndex ps)
    = map (fun e => whoIs (snd e)) ps.
Proof.
  revert redIndex blueIndex.
  induction ps as [| [k p] rest IH]; intros redIndex blueIndex; [split; reflexivity |].
  cbn [resetPlayers].
  destruct (team p) eqn:Et; cbn [map fst snd];
    destruct (IH (S redIndex) blueIndex) as [Ha Hb];
    destruct (IH redIndex (S blueIndex)) as [Hc Hd];
    rewrite ?Ha, ?Hb, ?Hc, ?Hd; unfold whoIs at 1; cbn [setPosition id team name];
    unfold whoIs at 1; split; reflexivity.
Qed.

Lemma updateLocalPlayer_whoIs (g : Game) :
  playerIds (updateLocalPlayer g) = playerIds g /\
  map (fun e => whoIs (snd e)) (players (state (updateLocalPlayer g)))
    = map (fun e => whoIs (snd e)) (players (state g)).
Proof.
  unfold updateLocalPlayer, playerIds.
  destruct (map_get (localPlayerId g) (players (state g))) as [p |] eqn:E;
    [| split; reflexivity].
  cbn [state players sendPlayerUpdate send withState withPlayers].
  split; [apply map_modify_keys |].
  apply map_modify_whoIs. intros v Hv. rewrite E in Hv. injection Hv as <-.
  reflexivity.
Qed.

Lemma hostPhysics_whoIs (g : Game) :
  playerIds (hostPhysics g) = playerIds g /\
  map (fun e => whoIs (snd e)) (players (state (hostPhysics g)))
    = map (fun e => whoIs (snd e)) (players (state g)).
Proof.
  unfold hostPhysics, playerIds. cbv zeta.
  cbn [state players withState withBall withPlayers].
  pose proof (collideAll_whoIs gameConfig (map snd (players (state g)))) as Hw.
  assert (Hlen : List.length (collideAll gameConfig (map snd (players (state g))))
                 = List.length (map fst (players (state g)))).
  { apply (f_equal (@List.length _)) in Hw.
    rewrite !length_map in Hw. rewrite length_map. exact Hw. }
  destruct (combine_fst_snd _ _ Hlen) as [Hk Hv].
  split; [exact Hk |].
  rewrite <- (map_map snd whoIs), Hv, Hw, map_map. reflexivity.
Qed.

Lemma hostGoalCheck_whoIs (g : Game) :
  playerIds (hostGoalCheck g) = playerIds g /\
  map (fun e => whoIs (snd e)) (players (state (hostGoalCheck g)))
    = map (fun e => whoIs (snd e)) (players (state g)).
Proof.
  unfold playerIds. rewrite hostGoalCheck_state.
  destruct (fst (Physics.checkGoal gameConfig (ball (state g)))); [| split; reflexivity].
  cbn [players withCountdown resetPositions withScore].
  apply resetPlayers_whoIs.
Qed.

Lemma update_whoIs (g : Game) :
  playerIds (update g) = playerIds g /\
  map (fun e => whoIs (snd e)) (players (state (update g)))
    = map (fun e => whoIs (snd e)) (players (state g)).
Proof.
  unfold update.
  destruct (countdown (state g) >? 0)%Z.
  - destruct (isHosting (withState g _)); split; reflexivity.
  - destruct (updateLocalPlayer_whoIs g) as [Hk Hw].
    destruct (isHosting (updateLocalPlayer g)); [| split; assumption].
    destruct (hostGoalCheck_whoIs (hostPhysics (updateLocalPlayer g))) as [Hk1 Hw1].
    destruct (hostPhysics_whoIs (updateLocalPlayer g)) as [Hk2 Hw2].
    split; congruence.
Qed.

Lemma ticks_playerIds (inputs : list InputState) (g : Game) :
  playerIds (ticks g inputs) = playerIds g.
Proof.
  revert g. induction inputs as [| i rest IH]; intros g; [reflexivity |].
  cbn [ticks]. rewrite IH. apply (update_whoIs (withInput g i)).
Qed.

(** X14.  A tick never adds, removes or reorders the entries of the players
    map, and never changes the [id], the [team] or the [name] of a player;
    the same holds over any sequence of ticks. *)
Theorem ticks_keep_the_players (inputs : list InputState) (g : Game) :
  playerIds (ticks g inputs) = playerIds g /\
  map (fun e => whoIs (snd e)) (players (state (ticks g inputs)))
    = map (fun e => whoIs (snd e)) (players (state g)).
Proof.
  split; [apply ticks_playerIds |].
  revert g. induction inputs as [| i rest IH]; intros g; [reflexivity |].
  cbn [ticks]. rewrite IH. apply (update_whoIs (withInput g i)).
Qed.

(** ** The ids in the map stay unique *)

Lemma handleKick_playerIds (g : Game) : playerIds (handleKick g) = playerIds g.
Proof.
  unfold handleKick, playerIds.
  destruct (map_get (localPlayerId g) (players (state g))) as [p |]; [| reflexivity].
  destruct (kickCooldown p <=? 0)%Z; [| reflexivity].
  cbn [isHosting send state localPlayerId].
  destruct (isHosting g).
  - destruct (Physics.kick gameConfig p (ball (state g))) as [[ok p'] b'].
    cbn [state players withState withBall withPlayers]. apply map_modify_keys.
  - cbn [state players withState withBall withPlayers]. apply map_modify_keys.
Qed.

Lemma handleRemoteKick_playerIds (g : Game) (playerId : string) :
  playerIds (handleRemoteKick g playerId) = playerIds g.
Proof.
  unfold handleRemoteKick, playerIds.
  destruct (map_get playerId (players (state g))) as [p |]; [| reflexivity].
  destruct (isHosting g).
  - destruct (Physics.kickWithExtendedRange gameConfig _ _) as [[ok p'] b'].
    cbn [state players withState withBall withPlayers]. apply map_modify_keys.
  - cbn [state players withState withPlayers]. apply map_modify_keys.
Qed.

Lemma switchTeam_playerIds (g : Game) : playerIds (switchTeam g) = playerIds g.
Proof.
  unfold switchTeam, playerIds.
  destruct (map_get (localPlayerId g) (players (state g))) as [p |]; [| reflexivity].
  cbv zeta. cbn [state players send withState withPlayers localPlayerId].
  rewrite !map_modify_keys. reflexivity.
Qed.

Lemma startGame_playerIds (g : Game) : playerIds (startGame g) = playerIds g.
Proof.
  unfold startGame, playerIds. destruct (isHosting g); [| reflexivity].
  cbn [negb]. cbv zeta.
  cbn [state players send withState withGamePhase resetPositions withIsPlaying withCountdown].
  apply resetPlayers_whoIs.
Qed.

Lemma keydownPlaying_playerIds (g : Game) (e : KeyboardEvent) :
  playerIds (keydownPlaying g e) = playerIds g.
Proof.
  unfold keydownPlaying.
  destruct (gamePhase g); try reflexivity. cbv zeta.
  repeat (match goal with
          | |- context [if String.eqb ?a ?b then _ else _] =>
              destruct (String.eqb a b); [reflexivity |]
          end).
  destruct (String.eqb _ _); [| reflexivity].
  destruct (negb _); [| reflexivity].
  rewrite handleKick_playerIds. reflexivity.
Qed.

Lemma keydown_playerIds (g : Game) (e : KeyboardEvent) :
  playerIds (keydown g e) = playerIds g.
Proof.
  unfold keydown.
  destruct (gamePhase g) eqn:Ep; try apply keydownPlaying_playerIds.
  destruct (_ || _); [apply switchTeam_playerIds |].
  destruct (_ && _); [apply startGame_playerIds | apply keydownPlaying_playerIds].
Qed.

Lemma keyup_playerIds (g : Game) (e : KeyboardEvent) :
  playerIds (keyup g e) = playerIds g.
Proof.
  unfold keyup. cbv zeta.
  repeat (match goal with
          | |- context [if String.eqb ?a ?b then _ else _] =>
              destruct (String.eqb a b); [reflexivity |]
          end).
  reflexivity.
Qed.

Lemma onMessage_NoDup (g : Game) (message : NetworkMessage) :
  NoDup (playerIds g) -> NoDup (playerIds (onMessage g message)).
Proof.
  intros Hnd. unfold playerIds in *.
  destruct message as [data | data | data | data | pid | data | pid];
    cbn [onMessage].
  - unfold handlePlayerUpdate.
    destruct (map_get _ _); [| exact Hnd].
    destruct (negb _); [| exact Hnd].
    cbn [state players withState withPlayers]. rewrite map_modify_keys. exact Hnd.
  - destruct (negb (isHosting g)); exact Hnd.
  - exact Hnd.
  - unfold handlePlayerJoin. cbv zeta. cbn [isHosting withState].
    destruct (isHosting g); cbn [state players send withState withPlayers];
      apply map_set_NoDup; exact Hnd.
  - cbn [handlePlayerLeave state players withState withPlayers].
    apply map_delete_NoDup. exact Hnd.
  - unfold handleGameState. cbv zeta.
    assert (Hr := restore_NoDup (players data) [] ltac:(constructor)).
    destruct (isPlaying data); [destruct (gamePhase (withState g _)) |];
      cbn [state players withState withGamePhase]; exact Hr.
  - fold (playerIds (handleRemoteKick g pid)).
    rewrite handleRemoteKick_playerIds. exact Hnd.
Qed.

(** X15.  The players map never holds two entries under one id: starting
    from a map without duplicates (the constructor's is empty), no inbound
    message, tick, key event, room creation, join or kickoff introduces
    one. *)
Theorem player_ids_stay_unique (g : Game) :
  NoDup (playerIds g) ->
  (forall message, NoDup (playerIds (onMessage g message))) /\
  (forall inputs, NoDup (playerIds (ticks g inputs))) /\
  (forall e, NoDup (playerIds (keydown g e))) /\
  (forall e, NoDup (playerIds (keyup g e))) /\
  (forall roomId playerName, NoDup (playerIds (createRoom g roomId playerName))) /\
  (forall peerId playerName, NoDup (playerIds (joinRoom g peerId playerName))) /\
  NoDup (playerIds (startGame g)) /\
  NoDup (playerIds (switchTeam g)) /\
  NoDup (playerIds (handleKick g)).
Proof.
  intros Hnd.
  split; [intros m; apply onMessage_NoDup; exact Hnd |].
  split; [intros inputs; rewrite ticks_playerIds; exact Hnd |].
  split; [intros e; rewrite keydown_playerIds; exact Hnd |].
  split; [intros e; rewrite keyup_playerIds; exact Hnd |].
  split; [intros r n; unfold createRoom, playerIds; cbv zeta;
          cbn [state players withState withPlayers withGamePhase withLocalPlayerId
               withIsHosting];
          apply map_set_NoDup; exact Hnd |].
  split; [intros p n; unfold joinRoom, playerIds; cbv zeta;
          cbn [state players send withState withPlayers withGamePhase
               withLocalPlayerId localPlayerId];
          apply map_set_NoDup; exact Hnd |].
  split; [rewrite startGame_playerIds; exact Hnd |].
  split; [rewrite switchTeam_playerIds; exact Hnd |].
  rewrite handleKick_playerIds; exact Hnd.
Qed.

Lemma player_ids_stay_unique_witness :
  NoDup (playerIds (createRoom newGame "hax-ABC123" "Host")).
Proof.
  apply (player_ids_stay_unique newGame ltac:(constructor)).
Defined.

(** ** Guests, kickoff and kicks *)

Lemma update_guest (g : Game) :
  isHosting g = false ->
  update g =
    (if (countdown (state g) >? 0)%Z
     then withState g (withCountdown (state g) (countdown (state g) - 1))
     else updateLocalPlayer g).
Proof.
  intros Hh. unfold update. destruct (countdown (state g) >? 0)%Z.
  - cbn [isHosting withState]. rewrite Hh. reflexivity.
  - destruct (updateLocalPlayer_frame g) as (_ & _ & _ & Hhost).
    rewrite Hhost, Hh. reflexivity.
Qed.

Lemma updateLocalPlayer_others (g : Game) (other : string) :
  other <> localPlayerId g ->
  map_get other (players (state (updateLocalPlayer g)))
    = map_get other (players (state g)).
Proof.
  intros Hne. unfold updateLocalPlayer.
  destruct (map_get (localPlayerId g) (players (state g))); [| reflexivity].
  cbn [state players sendPlayerUpdate send withState withPlayers].
  apply map_get_modify_other. exact Hne.
Qed.

Lemma updateLocalPlayer_localPlayerId (g : Game) :
  localPlayerId (updateLocalPlayer g) = localPlayerId g.
Proof.
  unfold updateLocalPlayer.
  destruct (map_get (localPlayerId g) (players (state g))); reflexivity.
Qed.

(** X16.  On a guest no sequence of ticks touches the ball, the score or
    any player other than the local one: ball and score change only
    through what the host sends. *)
Theorem guest_ticks_leave_ball_and_score (inputs : list InputState) (g : Game) :
  isHosting g = false ->
  ball (state (ticks g inputs)) = ball (state g) /\
  score (state (ticks g inputs)) = score (state g) /\
  (forall other, other <> localPlayerId g ->
     map_get other (players (state (ticks g inputs)))
       = map_get other (players (state g))).
Proof.
  revert g. induction inputs as [| i rest IH]; intros g Hh; [repeat split |].
  cbn [ticks].
  assert (Hu : isHosting (update (withInput g i)) = false /\
               localPlayerId (update (withInput g i)) = localPlayerId g /\
               ball (state (update (withInput g i))) = ball (state g) /\
               score (state (update (withInput g i))) = score (state g) /\
               (forall other, other <> localPlayerId g ->
                  map_get other (players (state (update (withInput g i))))
                    = map_get other (players (state g)))).
  { rewrite (update_guest (withInput g i) Hh).
    destruct (countdown (state (withInput g i)) >? 0)%Z.
    - repeat split; assumption.
    - destruct (updateLocalPlayer_frame (withInput g i)) as (Hs & Hb & _ & Hhost).
      split; [rewrite Hhost; exact Hh |].
      split; [exact (updateLocalPlayer_localPlayerId (withInput g i)) |].
      split; [exact Hb |]. split; [exact Hs |].
      intros other Hne. exact (updateLocalPlayer_others (withInput g i) other Hne). }
  destruct Hu as (Hh' & Hl & Hb & Hs & Ho).
  destruct (IH _ Hh') as (Hb' & Hs' & Ho').
  split; [congruence |]. split; [congruence |].
  intros other Hne. rewrite Ho' by (rewrite Hl; exact Hne). apply Ho. exact Hne.
Qed.

Lemma guest_ticks_leave_ball_and_score_witness :
  let i := {| up := true; down := false; left := false; right := true;
              kick := false |} in
  let g := joinRoom newGame "peer-1" "Guest" in
  ball (state (ticks g [i; i; i])) = ball (state g) /\
  score (state (ticks g [i; i; i])) = score (state g) /\
  (forall other, other <> localPlayerId g ->
     map_get other (players (state (ticks g [i; i; i])))
       = map_get other (players (state g))).
Proof.
  intros i g. apply (guest_ticks_leave_ball_and_score [i; i; i] g). reflexivity.
Defined.

(** X17.  After the host's [startGame] the next 180 ticks only count down:
    after [n <= 180] of them [countdown] is [180 - n], the game is playing,
    every player stands at its kickoff slot with the ball [createBall]
    makes, and the score is what it was.  On a guest [startGame] does
    nothing. *)
Theorem startGame_kickoff_freeze (g : Game) (inputs : list InputState) :
  (isHosting g = true ->
   (List.length inputs <= 180)%nat ->
   state (ticks (startGame g) inputs) =
     {| players := resetPlayers gameConfig 0 0 (players (state g));
        ball := createBall gameConfig;
        score := score (state g);
        isPlaying := true;
        countdown := 180 - Z.of_nat (List.length inputs) |} /\
   gamePhase (startGame g) = playing /\
   sent (startGame g) = sent g ++ [game_state (state (startGame g))]) /\
  (isHosting g = false -> startGame g = g).
Proof.
  split.
  - intros Hh Hlen.
    assert (Hst : state (startGame g) =
                  {| players := resetPlayers gameConfig 0 0 (players (state g));
                     ball := createBall gameConfig;
                     score := score (state g);
                     isPlaying := true;
                     countdown := 180 |}).
    { unfold startGame. rewrite Hh. reflexivity. }
    split; [| unfold startGame; rewrite Hh; split; reflexivity].
    rewrite ticks_counting_down; rewrite Hst; cbn [countdown]; [reflexivity | lia].
  - intros Hh. unfold startGame. rewrite Hh. reflexivity.
Qed.

Lemma startGame_kickoff_freeze_witness :
  let i := {| up := true; down := false; left := false; right := false;
              kick := false |} in
  let g := createRoom newGame "hax-ABC123" "Host" in
  countdown (state (ticks (startGame g) [i; i])) = 178%Z.
Proof.
  intros i g.
  destruct (proj1 (startGame_kickoff_freeze g [i; i]) eq_refl ltac:(cbn; lia))
    as (Hst & _). rewrite Hst. reflexivity.
Defined.

(** X18.  The local kick is gated by the local cooldown: [handleKick] sets
    the local player's [kickCooldown] to 20, so a second [handleKick] right
    after the first does nothing at all, and no [kick] message is sent
    while the cooldown is positive.  On a guest [handleKick] leaves the
    ball as it is; the score is never touched. *)
Theorem handleKick_once (g : Game) :
  handleKick (handleKick g) = handleKick g /\
  (isHosting g = false -> ball (state (handleKick g)) = ball (state g)) /\
  score (state (handleKick g)) = score (state g) /\
  (forall p, map_get (localPlayerId g) (players (state g)) = Some p ->
     (0 < kickCooldown p)%Z -> handleKick g = g).
Proof.
  assert (Hgate : forall g' p,
            map_get (localPlayerId g') (players (state g')) = Some p ->
            (0 < kickCooldown p)%Z -> handleKick g' = g').
  { intros g' p Hget Hc. unfold handleKick. rewrite Hget.
    destruct (kickCooldown p <=? 0)%Z eqn:E; [lia | reflexivity]. }
  split; [| split; [| split; [| intros p; apply Hgate]]].
  - remember (handleKick g) as g1 eqn:Hg1. unfold handleKick in Hg1.
    destruct (map_get (localPlayerId g) (players (state g))) as [p |] eqn:Hget;
      [| subst g1; unfold handleKick; rewrite Hget; reflexivity].
    destruct (kickCooldown p <=? 0)%Z eqn:E;
      [| subst g1; unfold handleKick; rewrite Hget, E; reflexivity].
    cbn [isHosting send state localPlayerId] in Hg1.
    destruct (isHosting g);
      [destruct (Physics.kick gameConfig p (ball (state g))) as [[ok p'] b'] |];
      subst g1;
      (eapply Hgate;
       [cbn [state players localPlayerId withState withBall withPlayers send];
        apply (map_get_modify_same _ _ _ _ Hget)
       | cbn; lia]).
  - intros Hh. unfold handleKick.
    destruct (map_get (localPlayerId g) (players (state g))) as [p |]; [| reflexivity].
    destruct (kickCooldown p <=? 0)%Z; [| reflexivity].
    cbn [isHosting send]. rewrite Hh. reflexivity.
  - unfold handleKick.
    destruct (map_get (localPlayerId g) (players (state g))) as [p |]; [| reflexivity].
    destruct (kickCooldown p <=? 0)%Z; [| reflexivity].
    cbn [isHosting send state localPlayerId].
    destruct (isHosting g);
      [destruct (Physics.kick gameConfig p (ball (state g))) as [[ok p'] b'] |];
      reflexivity.
Qed.

Lemma handleKick_once_witness :
  let g := joinRoom newGame "peer-1" "Guest" in
  ball (state (handleKick g)) = ball (state g).
Proof.
  intros g. apply (proj1 (proj2 (handleKick_once g))). reflexivity.
Defined.

(** X19.  A kick that arrives from the network never changes the score; it
    changes nothing at all when the id is unknown; on a guest it leaves the
    ball alone, and on the host it leaves the ball alone when the player is
    at or beyond the extended range.  For a known id the player's
    [isKicking] flag is raised. *)
Theorem handleRemoteKick_effect (g : Game) (playerId : string) :
  score (state (handleRemoteKick g playerId)) = score (state g) /\
  (map_get playerId (players (state g)) = None -> handleRemoteKick g playerId = g) /\
  (isHosting g = false ->
   ball (state (handleRemoteKick g playerId)) = ball (state g)) /\
  (forall p, map_get playerId (players (state g)) = Some p ->
     (playerRadius gameConfig + radius (ball (state g)) + 60
        <= Physics.distance (position p) (ballPosition (ball (state g))) ->
      ball (state (handleRemoteKick g playerId)) = ball (state g)) /\
     exists p',
       map_get playerId (players (state (handleRemoteKick g playerId))) = Some p' /\
       isKicking p' = true).
Proof.
  split; [| split; [| split]].
  - unfold handleRemoteKick.
    destruct (map_get playerId (players (state g))); [| reflexivity].
    destruct (isHosting g); [| reflexivity].
    destruct (Physics.kickWithExtendedRange gameConfig _ _) as [[ok p'] b']. reflexivity.
  - intros Hn. unfold handleRemoteKick. rewrite Hn. reflexivity.
  - intros Hh. unfold handleRemoteKick.
    destruct (map_get playerId (players (state g))); [| reflexivity].
    rewrite Hh. reflexivity.
  - intros p Hget. split; [| apply (handleRemoteKick_marks_isKicking g playerId p Hget)].
    intros Hfar. unfold handleRemoteKick. rewrite Hget.
    destruct (isHosting g); [| reflexivity].
    rewrite kickWithExtendedRange_out_of_range by exact Hfar. reflexivity.
Qed.

Lemma handleRemoteKick_effect_witness :
  let g := joinRoom newGame "peer-1" "Guest" in
  ball (state (handleRemoteKick g "peer-1")) = ball (state g).
Proof.
  intros g.
  apply (proj1 (proj2 (proj2 (handleRemoteKick_effect g "peer-1")))). reflexivity.
Defined.

(** X20.  The host is the authority for the ball: no [player-join],
    [player-leave], [player-update], [ball-update] or [score-update]
    message changes the host's ball, and a [ball-update] changes nothing on
    the host at all.  A guest takes position and velocity from a
    [ball-update] and keeps the radius of its own ball. *)
Theorem host_ignores_ball_updates (g : Game) (message : NetworkMessage) :
  (isHosting g = true ->
   match message with
   | game_state _ | kick_event _ => True
   | ball_update _ => onMessage g message = g
   | _ => ball (state (onMessage g message)) = ball (state g)
   end) /\
  (isHosting g = false ->
   forall data, message = ball_update data ->
     ball (state (onMessage g message))
       = {| ballPosition := ballPosition data; ballVelocity := ballVelocity data;
            radius := radius (ball (state g)) |}).
Proof.
  split.
  - intros Hh. destruct message as [data | data | data | data | pid | data | pid];
      cbn [onMessage]; try exact I.
    + unfold handlePlayerUpdate.
      destruct (map_get _ _); [| reflexivity]. destruct (negb _); reflexivity.
    + rewrite Hh. reflexivity.
    + reflexivity.
    + unfold handlePlayerJoin. cbv zeta. cbn [isHosting withState].
      rewrite Hh. reflexivity.
    + reflexivity.
  - intros Hh data ->. cbn [onMessage]. rewrite Hh. reflexivity.
Qed.

Lemma host_ignores_ball_updates_witness :
  let host := createRoom newGame "hax-ABC123" "Host" in
  let data :=
    {| ballPosition := {| x := 1; y := 2 |}; ballVelocity := {| x := 30; y := 40 |};
       radius := 99 |} in
  onMessage host (ball_update data) = host.
Proof.
  intros host data.
  apply (proj1 (host_ignores_ball_updates host (ball_update data))). reflexivity.
Defined.

(** ** Joining: from the two rooms to one shared state *)

(** X21.  A host creates a room on a new game, a guest joins on a new
    game under another id, the host handles the guest's [player-join] and
    the guest handles the [game-state] that the host sends back.  Then the
    guest holds the host's state: exactly two entries, the host first in
    the red team and the guest second in the blue team, both instances in
    the lobby. *)
Theorem join_handshake (roomId peerId hostName guestName : string) :
  roomId <> peerId ->
  let host := createRoom newGame roomId hostName in
  let guest := joinRoom newGame peerId guestName in
  exists joined,
    sent guest = [player_join joined] /\
    let host' := onMessage host (player_join joined) in
    sent host' = [game_state (state host')] /\
    let guest' := onMessage guest (game_state (state host')) in
    state guest' = state host' /\
    playerIds guest' = [roomId; peerId] /\
    option_map team (map_get roomId (players (state guest'))) = Some Red /\
    option_map team (map_get peerId (players (state guest'))) = Some Blue /\
    gamePhase host' = lobby /\ gamePhase guest' = lobby.
Proof.
  intros Hne host guest.
  eexists. split; [reflexivity |].
  cbn [onMessage]. unfold handlePlayerJoin, handleGameState, playerIds. cbv zeta.
  cbn [host guest createRoom joinRoom newGame createInitialState state players
       isHosting sent send withIsHosting withLocalPlayerId withGamePhase withState
       withPlayers localPlayerId gamePhase map_set joinDataOf joinId id
       fold_left fst snd ball score isPlaying countdown app teamCount map filter
       List.length Nat.leb createPlayer].
  rewrite !(eqb_neq_false roomId peerId Hne).
  cbn [fold_left map_set fst snd map isPlaying players withPlayers createInitialState].
  rewrite !(eqb_neq_false roomId peerId Hne).
  cbn [state players gamePhase withState withPlayers map fst map_get].
  rewrite !String.eqb_refl, !(eqb_neq_false roomId peerId Hne).
  cbn [option_map team joinTeam joinDataOf].
  repeat split.
Qed.

Lemma join_handshake_witness :
  let host := createRoom newGame "hax-ABC123" "Host" in
  let guest := joinRoom newGame "peer-1" "Guest" in
  exists joined,
    sent guest = [player_join joined] /\
    let host' := onMessage host (player_join joined) in
    sent host' = [game_state (state host')] /\
    let guest' := onMessage guest (game_state (state host')) in
    state guest' = state host' /\
    playerIds guest' = ["hax-ABC123"%string; "peer-1"%string] /\
    option_map team (map_get "hax-ABC123" (players (state guest'))) = Some Red /\
    option_map team (map_get "peer-1" (players (state guest'))) = Some Blue /\
    gamePhase host' = lobby /\ gamePhase guest' = lobby.
Proof.
  apply (join_handshake "hax-ABC123" "peer-1" "Host" "Guest").
  intros H. discriminate H.
Defined.

(** ** The keyboard and the lobby *)

Lemma handleKick_input_phase (g : Game) :
  input (handleKick g) = input g /\ gamePhase (handleKick g) = gamePhase g.
Proof.
  unfold handleKick.
  destruct (map_get (localPlayerId g) (players (state g))) as [p |]; [| split; reflexivity].
  destruct (kickCooldown p <=? 0)%Z; [| split; reflexivity].
  cbn [isHosting send state localPlayerId].
  destruct (isHosting g);
    [destruct (Physics.kick gameConfig p (ball (state g))) as [[ok p'] b'] |];
    split; reflexivity.
Qed.

(** X22.  While the game is playing, holding the space bar kicks once: the
    first key-down event sets the kick key and calls [handleKick], and a
    key-down event that repeats before any key-up changes nothing.  The
    key-up event clears the kick key again. *)
Theorem space_bar_kicks_on_the_edge (g : Game) (e : KeyboardEvent) :
  gamePhase g = playing ->
  key e = " "%string ->
  keydown (keydown g e) e = keydown g e /\
  kick (input (keydown g e)) = true /\
  kick (input (keyup (keydown g e) e)) = false /\
  (kick (input g) = false ->
   keydown g e = handleKick (withInput g (setKick (input g) true))).
Proof.
  intros Hp Hk.
  assert (Hdown : forall g', gamePhase g' = playing ->
            keydown g' e =
              if negb (kick (input g'))
              then handleKick (withInput g' (setKick (input g') true))
              else g').
  { intros g' Hp'. unfold keydown, keydownPlaying. rewrite Hp', Hk. reflexivity. }
  assert (Hup : forall g', kick (input (keyup g' e)) = false).
  { intros g'. unfold keyup. rewrite Hk. reflexivity. }
  rewrite (Hdown g Hp).
  destruct (negb (kick (input g))) eqn:En;
    [apply negb_true_iff in En | apply negb_false_iff in En]; rename En into Ek.
  2: { rewrite (Hdown g Hp), Ek. cbn [negb].
    split; [reflexivity |]. split; [congruence |]. split; [apply Hup |].
    intros H. congruence. }
  destruct (handleKick_input_phase (withInput g (setKick (input g) true)))
    as [Hi Hph].
  rewrite Hdown by (rewrite Hph; exact Hp).
  rewrite Hi. cbn [input withInput kick setKick negb].
  split; [reflexivity |]. split; [reflexivity |]. split; [apply Hup |].
  reflexivity.
Qed.

Lemma space_bar_kicks_on_the_edge_witness :
  let g := withGamePhase (createRoom newGame "hax-ABC123" "Host") playing in
  let e := {| key := " "; code := "Space" |} in
  keydown (keydown g e) e = keydown g e /\
  kick (input (keydown g e)) = true /\
  kick (input (keyup (keydown g e) e)) = false /\
  (kick (input g) = false ->
   keydown g e = handleKick (withInput g (setKick (input g) true))).
Proof.
  intros g e. apply (space_bar_kicks_on_the_edge g e); reflexivity.
Defined.

Lemma otherTeam_involutive (t : Team) : otherTeam (otherTeam t) = t.
Proof. destruct t; reflexivity. Qed.

Lemma switchTeam_local (g : Game) (p : Player) :
  map_get (localPlayerId g) (players (state g)) = Some p ->
  exists pos,
    let p' := setPositionOnly (setTeam p (otherTeam (team p))) pos in
    map_get (localPlayerId g) (players (state (switchTeam g))) = Some p' /\
    sent (switchTeam g) = sent g ++ [player_join p'] /\
    localPlayerId (switchTeam g) = localPlayerId g.
Proof.
  intros Hget. unfold switchTeam. rewrite Hget. cbv zeta.
  eexists. cbn [state players send sent withState withPlayers localPlayerId].
  split; [| split; reflexivity].
  pose proof (map_get_modify_same (localPlayerId g)
                (fun _ => setTeam p (otherTeam (team p))) _ _ Hget) as H1.
  rewrite (map_get_modify_same _ _ _ _ H1). reflexivity.
Qed.

(** X23.  [switchTeam] moves the local player to the other team and to a
    new slot, keeps its [id], [name], [velocity], [isKicking] and
    [kickCooldown], announces it with a [player-join] message, and leaves
    every other player as it was.  Switching twice brings the player back
    to its team.  Without a local player nothing happens. *)
Theorem switchTeam_effect (g : Game) :
  (map_get (localPlayerId g) (players (state g)) = None -> switchTeam g = g) /\
  (forall p, map_get (localPlayerId g) (players (state g)) = Some p ->
     exists p',
       map_get (localPlayerId g) (players (state (switchTeam g))) = Some p' /\
       team p' = otherTeam (team p) /\
       (id p', name p', velocity p', isKicking p', kickCooldown p')
         = (id p, name p, velocity p, isKicking p, kickCooldown p) /\
       sent (switchTeam g) = sent g ++ [player_join p'] /\
       (forall other, other <> localPlayerId g ->
          map_get other (players (state (switchTeam g)))
            = map_get other (players (state g))) /\
       option_map team
         (map_get (localPlayerId g) (players (state (switchTeam (switchTeam g)))))
         = Some (team p)).
Proof.
  split.
  - intros Hn. unfold switchTeam. rewrite Hn. reflexivity.
  - intros p Hget.
    destruct (switchTeam_local g p Hget) as (pos & H1 & Hsent & Hl). cbv zeta in *.
    eexists. split; [exact H1 |]. split; [reflexivity |]. split; [reflexivity |].
    split; [exact Hsent |]. split.
    + intros other Hne. unfold switchTeam. rewrite Hget. cbv zeta.
      cbn [state players send withState withPlayers localPlayerId].
      rewrite !map_get_modify_other by exact Hne. reflexivity.
    + rewrite <- Hl in H1.
      destruct (switchTeam_local (switchTeam g) _ H1) as (pos2 & H2 & _ & _).
      cbv zeta in H2. rewrite Hl in H2. rewrite H2.
      cbn [option_map team setPositionOnly setTeam].
      rewrite otherTeam_involutive. reflexivity.
Qed.

Lemma switchTeam_effect_witness :
  let g := createRoom newGame "hax-ABC123" "Host" in
  option_map team (map_get "hax-ABC123" (players (state (switchTeam g)))) = Some Blue.
Proof.
  intros g.
  destruct (proj2 (switchTeam_effect g)
              (createPlayer (withLocalPlayerId (withIsHosting newGame true) "hax-ABC123")
                 "hax-ABC123" "Host" Red) eq_refl)
    as (p' & Hget & Ht & _).
  change (localPlayerId g) with "hax-ABC123"%string in Hget.
  rewrite Hget. cbn [option_map]. rewrite Ht. reflexivity.
Defined.

(** * Further properties of the room id *)

















(** * Joining and leaving, opposite keys, the resting ball *)

Lemma map_delete_set_fresh (key : string) (v : Player) (m : list (string * Player)) :
  ~ In key (map fst m) -> map_delete key (map_set key v m) = m.
Proof.
  induction m as [| [k p] rest IH]; cbn; intros Hnin.
  - rewrite String.eqb_refl. reflexivity.
  - rewrite eqb_neq_false by tauto. cbn. rewrite eqb_neq_false by tauto.
    rewrite IH by tauto. reflexivity.
Qed.

(** X26.  [handlePlayerJoin] is an upsert that resets the kick state: the
    player is then found under its id with [isKicking] false and
    [kickCooldown] 0 (and velocity zero when the message carries none), no
    other entry changes, a known id keeps its place in the map and a new id
    goes to the end.  [handlePlayerLeave] removes the entry and nothing
    else, and undoes the join of a new id. *)
Theorem join_and_leave (g : Game) (data : PlayerJoinData) :
  (exists p,
     map_get (joinId data) (players (state (handlePlayerJoin g data))) = Some p /\
     (id p, position p, team p, name p)
       = (joinId data, joinPosition data, joinTeam data, joinName data) /\
     velocity p = match joinVelocity data with
                  | Some v => v
                  | None => {| x := 0; y := 0 |}
                  end /\
     isKicking p = false /\ kickCooldown p = 0%Z) /\
  (forall other, other <> joinId data ->
     map_get other (players (state (handlePlayerJoin g data)))
       = map_get other (players (state g)) /\
     map_get other (players (state (handlePlayerLeave g (joinId data))))
       = map_get other (players (state g))) /\
  (In (joinId data) (playerIds g) ->
     playerIds (handlePlayerJoin g data) = playerIds g) /\
  (~ In (joinId data) (playerIds g) ->
     playerIds (handlePlayerJoin g data) = playerIds g ++ [joinId data] /\
     state (handlePlayerLeave (handlePlayerJoin g data) (joinId data)) = state g) /\
  (NoDup (playerIds g) ->
     map_get (joinId data) (players (state (handlePlayerLeave g (joinId data)))) = None).
Proof.
  assert (Hst : players (state (handlePlayerJoin g data))
                = map_set (joinId data)
                    {| id := joinId data; position := joinPosition data;
                       velocity := match joinVelocity data with
                                   | Some v => v
                                   | None => {| x := 0; y := 0 |}
                                   end;
                       team := joinTeam data; name := joinName data;
                       isKicking := false; kickCooldown := 0 |}
                    (players (state g)) /\
                (ball (state (handlePlayerJoin g data)),
                 score (state (handlePlayerJoin g data)),
                 isPlaying (state (handlePlayerJoin g data)),
                 countdown (state (handlePlayerJoin g data)))
                = (ball (state g), score (state g), isPlaying (state g),
                   countdown (state g))).
  { unfold handlePlayerJoin. cbv zeta. cbn [isHosting withState id].
    destruct (isHosting g); split; reflexivity. }
  destruct Hst as [Hp Hrest]. unfold playerIds. rewrite Hp.
  split; [| split; [| split; [| split]]].
  - eexists. split; [apply map_get_set_same |]. repeat split.
  - intros other Hne. split.
    + apply map_get_set_other. exact Hne.
    + apply map_get_delete_other. exact Hne.
  - intros Hin. apply map_set_present. exact Hin.
  - intros Hnin. split.
    + rewrite map_set_fresh by exact Hnin. rewrite map_app. reflexivity.
    + unfold handlePlayerLeave. cbn [state withState withPlayers].
      rewrite Hp, map_delete_set_fresh by exact Hnin.
      injection Hrest as Hb Hs Hi Hc. unfold withPlayers. rewrite Hb, Hs, Hi, Hc.
      destruct (state g); reflexivity.
  - intros Hnd. apply map_get_delete_same. exact Hnd.
Qed.

Lemma join_and_leave_witness :
  let data :=
    {| joinId := "peer-1"; joinPosition := {| x := 850; y := 300 |};
       joinVelocity := None; joinTeam := Blue; joinName := "Guest" |} in
  let g := createRoom newGame "hax-ABC123" "Host" in
  playerIds (handlePlayerJoin g data) = playerIds g ++ ["peer-1"%string] /\
  state (handlePlayerLeave (handlePlayerJoin g data) "peer-1") = state g.
Proof.
  intros data g.
  apply (proj1 (proj2 (proj2 (proj2 (join_and_leave g data))))).
  cbn. intros [H | []]. discriminate H.
Defined.

(** X27.  Opposite keys cancel: with up and down both held [updatePlayer]
    does what it does with neither, and likewise for left and right. *)
Theorem updatePlayer_opposite_keys_cancel
    (cfg : GameConfig) (player : Player) (a b k : bool) :
  Physics.updatePlayer cfg player
    {| up := true; down := true; left := a; right := b; kick := k |}
  = Physics.updatePlayer cfg player
      {| up := false; down := false; left := a; right := b; kick := k |} /\
  Physics.updatePlayer cfg player
    {| up := a; down := b; left := true; right := true; kick := k |}
  = Physics.updatePlayer cfg player
      {| up := a; down := b; left := false; right := false; kick := k |}.
Proof.
  unfold Physics.updatePlayer. cbv zeta. cbn [up down left right].
  split; destruct a, b; cbn [x y];
    replace (0 - 1 + 1) with 0 by lra;
    replace (0 - 1 - 1 + 1) with (0 - 1) by lra;
    replace (0 + 1 - 1 + 1) with (0 + 1) by lra;
    reflexivity.
Qed.

Lemma magnitude_zero_vector : Physics.magnitude {| x := 0; y := 0 |} = 0.
Proof. apply magnitude_zero_iff. split; reflexivity. Qed.

Lemma clamp_inside (lo hi v : R) : lo <= v <= hi -> Rmax lo (Rmin hi v) = v.
Proof.
  intros [H1 H2]. rewrite Rmin_right by exact H2. apply Rmax_right. exact H1.
Qed.

(** One call on a player at rest with no direction key held. *)
Lemma updatePlayer_rest_step (cfg : GameConfig) (player : Player) (k : bool) :
  velocity player = {| x := 0; y := 0 |} ->
  Physics.playerInBounds cfg player ->
  position (Physics.updatePlayer cfg player
              {| up := false; down := false; left := false; right := false;
                 kick := k |}) = position player /\
  velocity (Physics.updatePlayer cfg player
              {| up := false; down := false; left := false; right := false;
                 kick := k |}) = {| x := 0; y := 0 |}.
Proof.
  intros Hv [Hx Hy]. unfold Physics.updatePlayer. cbv zeta.
  cbn [up down left right position velocity]. rewrite Hv.
  rewrite (normalize_zero {| x := 0; y := 0 |} magnitude_zero_vector). cbn [x y].
  replace {| x := 0 + 0 * playerSpeed cfg * 0.5; y := 0 + 0 * playerSpeed cfg * 0.5 |}
    with {| x := 0; y := 0 |} by (f_equal; lra).
  destruct (position player) as [px py]; cbn [x y] in *.
  destruct (Rgtb (Physics.magnitude {| x := 0; y := 0 |}) (playerSpeed cfg));
    [rewrite (normalize_zero {| x := 0; y := 0 |} magnitude_zero_vector);
     unfold Physics.multiply |];
    cbn [x y];
    (split; [f_equal; rewrite clamp_inside; lra | f_equal; lra]).
Qed.

(** X28.  A player at rest inside the bounds with no direction key held
    stays where it is, at rest, for any number of calls of [updatePlayer];
    only its cooldown runs down. *)
Theorem updatePlayer_at_rest (cfg : GameConfig) (n : nat) (player : Player) (k : bool) :
  velocity player = {| x := 0; y := 0 |} ->
  Physics.playerInBounds cfg player ->
  let idle := {| up := false; down := false; left := false; right := false;
                 kick := k |} in
  position (Physics.updatePlayerMany cfg player (repeat idle n)) = position player /\
  velocity (Physics.updatePlayerMany cfg player (repeat idle n)) = {| x := 0; y := 0 |}.
Proof.
  intros Hv Hin idle. revert player Hv Hin.
  induction n as [| n IH]; intros player Hv Hin; [split; [reflexivity | exact Hv] |].
  cbn [repeat Physics.updatePlayerMany].
  destruct (updatePlayer_rest_step cfg player k Hv Hin) as [Hp Hv'].
  fold idle in Hp, Hv'.
  destruct (IH (Physics.updatePlayer cfg player idle) Hv') as [Hp2 Hv2].
  - unfold Physics.playerInBounds. rewrite Hp. exact Hin.
  - split; [rewrite Hp2; exact Hp | exact Hv2].
Qed.

Lemma updatePlayer_at_rest_witness :
  let player :=
    {| id := "host"; position := {| x := 150; y := 300 |};
       velocity := {| x := 0; y := 0 |}; team := Red; name := "Player";
       isKicking := false; kickCooldown := 20 |} in
  let idle := {| up := false; down := false; left := false; right := false;
                 kick := true |} in
  position (Physics.updatePlayerMany gameConfig player (repeat idle 3)) = position player /\
  velocity (Physics.updatePlayerMany gameConfig player (repeat idle 3))
    = {| x := 0; y := 0 |}.
Proof.
  intros player idle. apply (updatePlayer_at_rest gameConfig 3 player true).
  - reflexivity.
  - unfold Physics.playerInBounds; cbn; lra.
Defined.

Lemma fold_collisions_apart (cfg : GameConfig) (ps : list (string * Player)) (b : Ball) :
  Forall (fun e =>
            playerRadius cfg + radius b
              <= Physics.distance (position (snd e)) (ballPosition b)) ps ->
  fold_left (fun b entry => snd (Physics.handlePlayerBallCollision cfg (snd entry) b))
    ps b = b.
Proof.
  induction ps as [| e rest IH]; intros H; cbn [fold_left]; [reflexivity |].
  inversion H as [| ? ? He Hrest]; subst.
  rewrite (handlePlayerBallCollision_apart cfg (snd e) b He). cbn [snd].
  apply IH. exact Hrest.
Qed.

(** X29.  On a host tick outside the countdown, a ball that lies at rest
    and touches no wall, and that no player touches once the local player
    has moved, is left exactly where it is: no goal is counted, the score
    and the countdown stay. *)
Theorem host_tick_leaves_resting_ball (g : Game) :
  isHosting g = true ->
  (countdown (state g) <= 0)%Z ->
  ballVelocity (ball (state g)) = {| x := 0; y := 0 |} ->
  radius (ball (state g)) <= x (ballPosition (ball (state g)))
    <= fieldWidth gameConfig - radius (ball (state g)) ->
  radius (ball (state g)) <= y (ballPosition (ball (state g)))
    <= fieldHeight gameConfig - radius (ball (state g)) ->
  Forall (fun e =>
            playerRadius gameConfig + radius (ball (state g))
              <= Physics.distance (position (snd e)) (ballPosition (ball (state g))))
    (players (state (updateLocalPlayer g))) ->
  ball (state (update g)) = ball (state g) /\
  score (state (update g)) = score (state g) /\
  countdown (state (update g)) = countdown (state g).
Proof.
  intros Hh Hc Hv Hx Hy Hfar.
  destruct (updateLocalPlayer_frame g) as (Hs & Hb & Hcd & _).
  assert (Hrest : Physics.updateBall gameConfig (ball (state g)) = ball (state g)).
  { destruct (ball (state g)) as [[px py] [vx vy] r];
      cbn [ballPosition ballVelocity radius x y] in *.
    injection Hv as -> ->.
    unfold Physics.updateBall; cbv zeta;
      cbn [ballPosition ballVelocity radius x y].
    case_comparisons; try lra; repeat f_equal; lra. }
  assert (Hball : ball (state (hostPhysics (updateLocalPlayer g))) = ball (state g)).
  { unfold hostPhysics. cbv zeta. cbn [state ball withState withBall].
    rewrite Hb, Hrest. apply fold_collisions_apart. exact Hfar. }
  assert (Hnone : fst (Physics.checkGoal gameConfig
                         (ball (state (hostPhysics (updateLocalPlayer g))))) = None).
  { rewrite Hball. apply checkGoal_none. intros [[Hl | Hr] _]; lra. }
  rewrite (update_host_physics g Hc Hh), hostGoalCheck_state, Hnone.
  rewrite Hball. split; [reflexivity |].
  split; [rewrite hostPhysics_score; exact Hs |].
  change (countdown (state (hostPhysics (updateLocalPlayer g))))
    with (countdown (state (updateLocalPlayer g))).
  exact Hcd.
Qed.

Lemma host_tick_leaves_resting_ball_witness :
  let g := createRoom newGame "hax-ABC123" "Host" in
  ball (state (update g)) = ball (state g) /\
  score (state (update g)) = score (state g) /\
  countdown (state (update g)) = countdown (state g).
Proof.
  intros g.
  apply (host_tick_leaves_resting_ball g);
    try reflexivity; try (cbn; lia); try (cbn; lra).
  assert (Hp : players (state (updateLocalPlayer g))
               = [("hax-ABC123"%string,
                   Physics.updatePlayer gameConfig
                     (createPlayer
                        (withLocalPlayerId (withIsHosting newGame true) "hax-ABC123")
                        "hax-ABC123" "Host" Red)
                     {| up := false; down := false; left := false; right := false;
                        kick := false |})])
    by reflexivity.
  rewrite Hp. constructor; [| constructor].
  cbn [snd].
  destruct (updatePlayer_rest_step gameConfig
              (createPlayer (withLocalPlayerId (withIsHosting newGame true) "hax-ABC123")
                 "hax-ABC123" "Host" Red) false eq_refl
              ltac:(unfold Physics.playerInBounds; cbn; lra)) as [Hq _].
  rewrite Hq. apply magnitude_ge. cbn. lra.
Defined.
